(** * goph: an SSH/SFTP convenience client (client.go)

    A shallow embedding of [client.go].  The Go code is a composition of
    calls into external collaborators (the ssh transport, the sftp
    sub-system, the local file system, [io.Copy]) with explicit error
    checks and deferred releases.  The collaborators are modelled as
    primitives of a small monad that threads a [World] (file systems, open
    handles, package-level variables), reads an [Env] (how each
    collaborator behaves during the call: which step fails, what the
    remote process does) and records the [Event]s it performs.  A
    computation either returns or panics; [defer] runs its release on
    both. *)

From Stdlib Require Import ZArith NArith Ascii String List.
From Stdlib Require Import DecimalString.
From Stdlib Require Import Strings.Byte.
Import Stdlib.Init.Byte.
From stdpp Require Import base gmap strings list.

Local Open Scope string_scope.

(** ** Values of the Go program *)

(** Go's [error] interface values that the collaborators produce. *)
Inductive error :=
| ExitError (status : Z)       (* *ssh.ExitError: remote exit status *)
| ErrNotExist (path : string)  (* fs.ErrNotExist wrapped in a path error *)
| ErrOther (msg : string).     (* any other failure, by its message *)

(** The value carried by a panic. *)
Definition PanicVal := string.

(** A collaborator's [(value, err)] result that obeys Go's convention:
    the value is meaningful exactly when [err == nil]. *)
Inductive Result (A : Type) :=
| Ok (a : A)
| Err (e : error).
Arguments Ok {A} a.
Arguments Err {A} e.

(** A byte slice; [None] is the nil slice. *)
Definition GoBytes := option (list byte).

Definition slice_bytes (s : GoBytes) : list byte := default [] s.

Module ssh.

(** [ssh.AuthMethod] and [ssh.HostKeyCallback] are opaque values of the
    transport library; only their identity matters here. *)
Inductive AuthMethod := AuthMethodRef (n : nat).

Inductive HostKeyCallback := KnownHostsCallback (file : string).

Module ClientConfig.

Record t := mk {
  User : string;
  Auth : list AuthMethod;
  Timeout : Z;                                (* time.Duration, in ns *)
  HostKeyCallback : option HostKeyCallback    (* nil-able func value *)
}.

End ClientConfig.

End ssh.

(** [type Auth []ssh.AuthMethod] *)
Definition Auth := list ssh.AuthMethod.

Module Config.

Record t := mk {
  Auth : Auth;
  Protocol : string;
  Addr : string;
  Port : N;                                     (* uint *)
  ClientConfig : option ssh.ClientConfig.t      (* *ssh.ClientConfig *)
}.

End Config.

(** Handles (connections, sessions, files, sftp clients) are numbers. *)
Definition handle := nat.

Module Client.

Record t := mk {
  Client : handle;                              (* embedded *ssh.Client *)
  Config : option Config.t                      (* *Config *)
}.

End Client.

(** ** World, environment, events *)

Inductive Resource :=
| ResConn (addr : string)
| ResSession (conn : handle)
| ResSftp (conn : handle)
| ResLocalFile (path : string)
| ResRemoteFile (path : string).

Record World := mkWorld {
  DefaultTimeout : Z;                       (* package-level variable *)
  local_fs : gmap string (list byte);
  remote_fs : gmap string (list byte);
  open : gmap handle Resource               (* handles not yet closed *)
}.

(** What a command does once the session asks the remote side to run it. *)
Inductive ProcOutcome :=
| Exited (out : list byte) (status : Z)
| SessionFailed (out : list byte) (e : error)
| Panicked (v : PanicVal).

Record Env := mkEnv {
  known_hosts : Result string;              (* the known-hosts file, if usable *)
  dial_err : option error;
  new_session_err : option error;
  exec : string -> ProcOutcome;
  new_sftp_err : option error;
  os_open_err : string -> option error;     (* beyond "does not exist" *)
  os_create_err : string -> option error;
  sftp_create_err : string -> option error;
  sftp_open_err : string -> option error;   (* beyond "does not exist" *)
  copy_fault : option (nat * error);        (* fail after that many bytes *)
  sync_err : option error;
  close_err : handle -> option error;
  (* what running the command does to the files of the remote host *)
  exec_effect : string -> gmap string (list byte) -> gmap string (list byte);
  (* when sftp.NewClient fails: had it opened its ssh session already? *)
  sftp_leaks_session : bool
}.

Inductive Event :=
| EvDial (proto addr : string) (cfg : option ssh.ClientConfig.t) (r : Result handle)
| EvNewSession (conn : handle) (r : Result handle)
| EvCombinedOutput (sess : handle) (cmd : string)
| EvNewSftp (conn : handle) (r : Result handle)
| EvOsOpen (path : string) (r : Result handle)
| EvOsCreate (path : string) (r : Result handle)
| EvSftpCreate (ftp : handle) (path : string) (r : Result handle)
| EvSftpOpen (ftp : handle) (path : string) (r : Result handle)
| EvCopy (dst src : handle) (n : nat) (err : option error)
| EvSync (f : handle) (err : option error)
| EvClose (h : handle) (err : option error).

(** ** The monad *)

Inductive Outcome (A : Type) :=
| Ret (a : A)
| Panic (v : PanicVal).
Arguments Ret {A} a.
Arguments Panic {A} v.

Record Res (A : Type) := mkRes {
  world : World;
  events : list Event;
  outcome : Outcome A
}.
Arguments mkRes {A} world events outcome.
Arguments world {A} r.
Arguments events {A} r.
Arguments outcome {A} r.

Definition M (A : Type) := Env -> World -> Res A.

Definition ret {A} (a : A) : M A := fun _ w => mkRes w [] (Ret a).

Definition panic {A} (v : PanicVal) : M A := fun _ w => mkRes w [] (Panic v).

Definition bind {A B} (m : M A) (k : A -> M B) : M B := fun env w =>
  let r := m env w in
  match outcome r with
  | Ret a =>
      let r' := k a env (world r) in
      mkRes (world r') (events r ++ events r')%list (outcome r')
  | Panic v => mkRes (world r) (events r) (Panic v)
  end.

(** [defer release; body]: the release runs when the body returns and when
    it panics; what it returns is dropped.  A panic of the release itself
    replaces the body's outcome. *)
Definition defer {A B} (release : M B) (body : M A) : M A := fun env w =>
  let r := body env w in
  let r' := release env (world r) in
  mkRes (world r') (events r ++ events r')%list
        (match outcome r' with
         | Ret _ => outcome r
         | Panic v => Panic v
         end).

Notation "x <- c1 ;; c2" := (bind c1 (fun x => c2))
  (at level 63, c1 at next level, right associativity).

(** ** World updates *)

Definition with_local_fs (f : gmap string (list byte)) (w : World) : World :=
  mkWorld (DefaultTimeout w) f (remote_fs w) (open w).

Definition with_remote_fs (f : gmap string (list byte)) (w : World) : World :=
  mkWorld (DefaultTimeout w) (local_fs w) f (open w).

Definition with_open (o : gmap handle Resource) (w : World) : World :=
  mkWorld (DefaultTimeout w) (local_fs w) (remote_fs w) o.

(** A handle that is not open: the next one the world hands out. *)
Definition new_handle (w : World) : handle := fresh (dom (open w)).

Definition acquire (r : Resource) (w : World) : World :=
  with_open (<[new_handle w := r]> (open w)) w.

Definition release (h : handle) (w : World) : World :=
  with_open (delete h (open w)) w.

(** ** The collaborators *)

(** Modelled from the spec: [DefaultKnownHosts] (hosts.go) is not part of
    the sources at hand.  It obtains the trust-verification callback from
    the user's known-hosts file: a callback when the file is usable, an
    error (and a nil callback) when the callback cannot be obtained. *)
Definition DefaultKnownHosts : M (option ssh.HostKeyCallback * option error) :=
  fun env w =>
    match known_hosts env with
    | Ok file => mkRes w [] (Ret (Some (ssh.KnownHostsCallback file), None))
    | Err e => mkRes w [] (Ret (None, Some e))
    end.

(** Reading the package-level variable [DefaultTimeout]. *)
Definition get_DefaultTimeout : M Z := fun _ w => mkRes w [] (Ret (DefaultTimeout w)).

(** [time.Second], in nanoseconds. *)
Definition time_Second : Z := 1000000000.

(** [var DefaultTimeout = 20 * time.Second] *)
Definition init_DefaultTimeout : Z := 20 * time_Second.

(** The world at program start: the package variable initialised, nothing
    open, file systems as given. *)
Definition init_world (lfs rfs : gmap string (list byte)) : World :=
  mkWorld init_DefaultTimeout lfs rfs ∅.

(** [fmt.Sprint] of an unsigned integer: its decimal digits. *)
Definition fmt_Sprint (n : N) : string := NilZero.string_of_uint (N.to_uint n).

Fixpoint has_colon (s : string) : bool :=
  match s with
  | EmptyString => false
  | String c s' => if Ascii.eqb c ":"%char then true else has_colon s'
  end.

(** [net.JoinHostPort]: a host containing a colon is bracketed. *)
Definition net_JoinHostPort (host port : string) : string :=
  if has_colon host then "[" ++ host ++ "]:" ++ port else host ++ ":" ++ port.

(** [ssh.Dial]: dereferences the configuration, then connects. *)
Definition ssh_Dial (network addr : string) (config : option ssh.ClientConfig.t)
  : M (Result handle) := fun env w =>
  match config with
  | None => mkRes w [] (Panic "invalid memory address or nil pointer dereference")
  | Some _ =>
      match dial_err env with
      | Some e => mkRes w [EvDial network addr config (Err e)] (Ret (Err e))
      | None =>
          let h := new_handle w in
          mkRes (acquire (ResConn addr) w) [EvDial network addr config (Ok h)] (Ret (Ok h))
      end
  end.

(** [ssh.Client.NewSession] *)
Definition NewSession (c : Client.t) : M (Result handle) := fun env w =>
  match new_session_err env with
  | Some e => mkRes w [EvNewSession (Client.Client c) (Err e)] (Ret (Err e))
  | None =>
      let h := new_handle w in
      mkRes (acquire (ResSession (Client.Client c)) w)
            [EvNewSession (Client.Client c) (Ok h)] (Ret (Ok h))
  end.

(** [bytes.Buffer.Bytes]: a buffer nothing was written to yields nil. *)
Definition Buffer_Bytes (written : list byte) : GoBytes :=
  match written with
  | [] => None
  | _ => Some written
  end.

(** [ssh.Session.CombinedOutput]: runs the command, waits for it, and
    returns what it wrote to stdout and stderr together with the outcome of
    the wait; a non-zero exit status is reported as an [ExitError].  What
    the command did on the remote host shows in the remote files. *)
Definition Session_CombinedOutput (sess : handle) (cmd : string)
  : M (GoBytes * option error) := fun env w =>
  let w' := with_remote_fs (exec_effect env cmd (remote_fs w)) w in
  match exec env cmd with
  | Exited out status =>
      mkRes w' [EvCombinedOutput sess cmd]
            (Ret (Buffer_Bytes out,
                  if (status =? 0)%Z then None else Some (ExitError status)))
  | SessionFailed out e =>
      mkRes w' [EvCombinedOutput sess cmd] (Ret (Buffer_Bytes out, Some e))
  | Panicked v => mkRes w' [EvCombinedOutput sess cmd] (Panic v)
  end.

(** [Close] of a session, file, sftp client or remote file: the handle is
    gone afterwards, whatever [Close] returns. *)
Definition Close (h : handle) : M (option error) := fun env w =>
  mkRes (release h w) [EvClose h (close_err env h)] (Ret (close_err env h)).

(** [os.Open]: read-only, the file must exist. *)
Definition os_Open (path : string) : M (Result handle) := fun env w =>
  match os_open_err env path with
  | Some e => mkRes w [EvOsOpen path (Err e)] (Ret (Err e))
  | None =>
      match local_fs w !! path with
      | None =>
          mkRes w [EvOsOpen path (Err (ErrNotExist path))] (Ret (Err (ErrNotExist path)))
      | Some _ =>
          let h := new_handle w in
          mkRes (acquire (ResLocalFile path) w) [EvOsOpen path (Ok h)] (Ret (Ok h))
      end
  end.

(** [os.Create]: creates the file, or truncates it when it exists. *)
Definition os_Create (path : string) : M (Result handle) := fun env w =>
  match os_create_err env path with
  | Some e => mkRes w [EvOsCreate path (Err e)] (Ret (Err e))
  | None =>
      let h := new_handle w in
      mkRes (acquire (ResLocalFile path) (with_local_fs (<[path := []]> (local_fs w)) w))
            [EvOsCreate path (Ok h)] (Ret (Ok h))
  end.

(** [sftp.Client.Create]: creates or truncates the remote file. *)
Definition sftp_Create (ftp : handle) (path : string) : M (Result handle) := fun env w =>
  match sftp_create_err env path with
  | Some e => mkRes w [EvSftpCreate ftp path (Err e)] (Ret (Err e))
  | None =>
      let h := new_handle w in
      mkRes (acquire (ResRemoteFile path) (with_remote_fs (<[path := []]> (remote_fs w)) w))
            [EvSftpCreate ftp path (Ok h)] (Ret (Ok h))
  end.

(** [sftp.Client.Open]: read-only, the remote file must exist. *)
Definition sftp_Open (ftp : handle) (path : string) : M (Result handle) := fun env w =>
  match sftp_open_err env path with
  | Some e => mkRes w [EvSftpOpen ftp path (Err e)] (Ret (Err e))
  | None =>
      match remote_fs w !! path with
      | None =>
          mkRes w [EvSftpOpen ftp path (Err (ErrNotExist path))]
                (Ret (Err (ErrNotExist path)))
      | Some _ =>
          let h := new_handle w in
          mkRes (acquire (ResRemoteFile path) w) [EvSftpOpen ftp path (Ok h)] (Ret (Ok h))
      end
  end.

(** What a freshly opened file handle reads until end of file. *)
Definition contents (w : World) (h : handle) : list byte :=
  match open w !! h with
  | Some (ResLocalFile p) => default [] (local_fs w !! p)
  | Some (ResRemoteFile p) => default [] (remote_fs w !! p)
  | _ => []
  end.

(** Writing through a file handle, after what the file already holds. *)
Definition write (h : handle) (data : list byte) (w : World) : World :=
  match open w !! h with
  | Some (ResLocalFile p) =>
      with_local_fs (<[p := (default [] (local_fs w !! p) ++ data)%list]> (local_fs w)) w
  | Some (ResRemoteFile p) =>
      with_remote_fs (<[p := (default [] (remote_fs w !! p) ++ data)%list]> (remote_fs w)) w
  | _ => w
  end.

(** [io.Copy(dst, src)]: copies until end of file on [src] or the first
    error; returns the number of bytes copied and that error.  A copy that
    fails has written only the bytes before the failure. *)
Definition io_Copy (dst src : handle) : M (nat * option error) := fun env w =>
  let data := contents w src in
  match copy_fault env with
  | None =>
      mkRes (write dst data w) [EvCopy dst src (length data) None]
            (Ret (length data, None))
  | Some (k, e) =>
      let part := take k data in
      mkRes (write dst part w) [EvCopy dst src (length part) (Some e)]
            (Ret (length part, Some e))
  end.

(** [os.File.Sync] *)
Definition File_Sync (f : handle) : M (option error) := fun env w =>
  mkRes w [EvSync f (sync_err env)] (Ret (sync_err env)).

(** ** client.go *)

Definition NewConfig (user addr : string) (port : N) (auth : Auth)
  : M (option Config.t * option error) :=
  r <- DefaultKnownHosts ;;
  let (callback, err) := r in
  match err with
  | Some _ => ret (None, err)
  | None =>
      timeout <- get_DefaultTimeout ;;
      ret (Some {| Config.Auth := auth;
                   Config.Addr := addr;
                   Config.Port := 22;
                   Config.Protocol := "tcp";
                   Config.ClientConfig :=
                     Some {| ssh.ClientConfig.User := user;
                             ssh.ClientConfig.Auth := auth;
                             ssh.ClientConfig.Timeout := timeout;
                             ssh.ClientConfig.HostKeyCallback := callback |} |},
           None)
  end.

Definition NewClient (c : option Config.t) : M (option Client.t * option error) :=
  match c with
  | None => panic "invalid memory address or nil pointer dereference"
  | Some cfg =>
      r <- ssh_Dial (Config.Protocol cfg)
                    (net_JoinHostPort (Config.Addr cfg) (fmt_Sprint (Config.Port cfg)))
                    (Config.ClientConfig cfg) ;;
      match r with
      | Err e => ret (None, Some e)
      | Ok client => ret (Some {| Client.Client := client; Client.Config := c |}, None)
      end
  end.

Definition Run (c : Client.t) (cmd : string) : M (GoBytes * option error) :=
  r <- NewSession c ;;
  match r with
  | Err e => ret (None, Some e)
  | Ok sess => defer (Close sess) (Session_CombinedOutput sess cmd)
  end.

(** [sftp.NewClient(c.Client, opts...)]: opens an ssh session on the
    connection, requests the sftp subsystem on it and starts the client.
    It hands out a handle only when all of that worked; when it fails
    after the session came up, it returns without closing the session, and
    nobody holds a handle to it. *)
Definition NewSftp (c : Client.t) : M (Result handle) := fun env w =>
  match new_sftp_err env with
  | Some e =>
      mkRes (if sftp_leaks_session env
             then acquire (ResSession (Client.Client c)) w
             else w)
            [EvNewSftp (Client.Client c) (Err e)] (Ret (Err e))
  | None =>
      let h := new_handle w in
      mkRes (acquire (ResSftp (Client.Client c)) w)
            [EvNewSftp (Client.Client c) (Ok h)] (Ret (Ok h))
  end.

Definition Upload (c : Client.t) (localPath remotePath : string) : M (option error) :=
  r <- os_Open localPath ;;
  match r with
  | Err e => ret (Some e)
  | Ok local =>
      defer (Close local)
        (r <- NewSftp c ;;
         match r with
         | Err e => ret (Some e)
         | Ok ftp =>
             defer (Close ftp)
               (r <- sftp_Create ftp remotePath ;;
                match r with
                | Err e => ret (Some e)
                | Ok remote =>
                    defer (Close remote)
                      (r <- io_Copy remote local ;;
                       ret (snd r))
                end)
         end)
  end.

Definition Download (c : Client.t) (remotePath localPath : string) : M (option error) :=
  r <- os_Create localPath ;;
  match r with
  | Err e => ret (Some e)
  | Ok local =>
      defer (Close local)
        (r <- NewSftp c ;;
         match r with
         | Err e => ret (Some e)
         | Ok ftp =>
             defer (Close ftp)
               (r <- sftp_Open ftp remotePath ;;
                match r with
                | Err e => ret (Some e)
                | Ok remote =>
                    defer (Close remote)
                      (r <- io_Copy local remote ;;
                       match snd r with
                       | Some e => ret (Some e)
                       | None => File_Sync local
                       end)
                end)
         end)
  end.

(** [context.Context] values are opaque; [context.Background()] is the one
    that is never cancelled. *)
Module context.

Inductive Context :=
| Background
| WithCancel (id : nat).

End context.

(** Modelled from the spec: the struct [Cmd] is declared in cmd.go, which
    is not part of the sources at hand.  Its fields are the four that the
    composite literal in [Command] sets, the RemoteCommand of the
    specification: executable, argument list, owning session, cancellation
    signal. *)
Module Cmd.

Record t := mk {
  Path : string;
  Args : list string;
  Session : handle;                             (* *ssh.Session *)
  Context : context.Context
}.

End Cmd.

Definition Command (c : Client.t) (name : string) (args : list string)
  : M (option Cmd.t * option error) :=
  r <- NewSession c ;;
  match r with
  | Err e => ret (None, Some e)
  | Ok sess =>
      ret (Some {| Cmd.Path := name;
                   Cmd.Args := args;
                   Cmd.Session := sess;
                   Cmd.Context := context.Background |},
           None)
  end.

Definition CommandContext (c : Client.t) (ctx : context.Context) (name : string)
           (args : list string) : M (option Cmd.t * option error) :=
  r <- Command c name args ;;
  let (cmd, err) := r in
  match err with
  | Some _ => ret (cmd, err)
  | None =>
      match cmd with
      | None => panic "invalid memory address or nil pointer dereference"
      | Some cm =>
          ret (Some {| Cmd.Path := Cmd.Path cm;
                       Cmd.Args := Cmd.Args cm;
                       Cmd.Session := Cmd.Session cm;
                       Cmd.Context := ctx |},
               None)
      end
  end.

Section RunContext.

(** The method [CombinedOutput] of [Cmd] lives in cmd.go; [RunContext] is
    taken over any behaviour of it. *)
Variable Cmd_CombinedOutput : Cmd.t -> M (GoBytes * option error).

Definition RunContext (c : Client.t) (ctx : context.Context) (name : string)
  : M (GoBytes * option error) :=
  r <- CommandContext c ctx name [] ;;
  let (cmd, err) := r in
  match err with
  | Some _ => ret (None, err)
  | None =>
      match cmd with
      | None => panic "invalid memory address or nil pointer dereference"
      | Some cm => Cmd_CombinedOutput cm
      end
  end.

End RunContext.

(** [Client.Close]: closes the embedded transport client and returns what
    that close returns. *)
Definition Client_Close (c : Client.t) : M (option error) := Close (Client.Client c).

(** ** Sample worlds and environments *)

(** The remote process of the samples: [false] exits with status 1 and
    writes nothing, [fail] writes to stderr and exits with status 2,
    [boom] makes output collection panic, anything else prints [hi]. *)
Definition sample_exec (cmd : string) : ProcOutcome :=
  if String.eqb cmd "false" then Exited [] 1
  else if String.eqb cmd "fail" then Exited [x6f; x6f; x70; x73; x0a] 2
  else if String.eqb cmd "boom" then Panicked "output collection panicked"
  else Exited [x68; x69; x0a] 0.

(** Every collaborator succeeds. *)
Definition env_ok : Env :=
  {| known_hosts := Ok "/home/user/.ssh/known_hosts";
     dial_err := None;
     new_session_err := None;
     exec := sample_exec;
     new_sftp_err := None;
     os_open_err := fun _ => None;
     os_create_err := fun _ => None;
     sftp_create_err := fun _ => None;
     sftp_open_err := fun _ => None;
     copy_fault := None;
     sync_err := None;
     close_err := fun _ => None;
     exec_effect := fun _ fs => fs;
     sftp_leaks_session := true |}.

Definition with_known_hosts (k : Result string) (env : Env) : Env :=
  mkEnv k (dial_err env) (new_session_err env) (exec env) (new_sftp_err env)
        (os_open_err env) (os_create_err env) (sftp_create_err env)
        (sftp_open_err env) (copy_fault env) (sync_err env) (close_err env)
        (exec_effect env) (sftp_leaks_session env).

Definition with_new_session_err (e : option error) (env : Env) : Env :=
  mkEnv (known_hosts env) (dial_err env) e (exec env) (new_sftp_err env)
        (os_open_err env) (os_create_err env) (sftp_create_err env)
        (sftp_open_err env) (copy_fault env) (sync_err env) (close_err env)
        (exec_effect env) (sftp_leaks_session env).

Definition with_sftp_create_err (f : string -> option error) (env : Env) : Env :=
  mkEnv (known_hosts env) (dial_err env) (new_session_err env) (exec env)
        (new_sftp_err env) (os_open_err env) (os_create_err env) f
        (sftp_open_err env) (copy_fault env) (sync_err env) (close_err env)
        (exec_effect env) (sftp_leaks_session env).

Definition with_copy_fault (f : option (nat * error)) (env : Env) : Env :=
  mkEnv (known_hosts env) (dial_err env) (new_session_err env) (exec env)
        (new_sftp_err env) (os_open_err env) (os_create_err env)
        (sftp_create_err env) (sftp_open_err env) f (sync_err env) (close_err env)
        (exec_effect env) (sftp_leaks_session env).

Definition with_sync_err (e : option error) (env : Env) : Env :=
  mkEnv (known_hosts env) (dial_err env) (new_session_err env) (exec env)
        (new_sftp_err env) (os_open_err env) (os_create_err env)
        (sftp_create_err env) (sftp_open_err env) (copy_fault env) e (close_err env)
        (exec_effect env) (sftp_leaks_session env).

Definition with_dial_err (e : option error) (env : Env) : Env :=
  mkEnv (known_hosts env) e (new_session_err env) (exec env) (new_sftp_err env)
        (os_open_err env) (os_create_err env) (sftp_create_err env)
        (sftp_open_err env) (copy_fault env) (sync_err env) (close_err env)
        (exec_effect env) (sftp_leaks_session env).

Definition with_os_create_err (f : string -> option error) (env : Env) : Env :=
  mkEnv (known_hosts env) (dial_err env) (new_session_err env) (exec env)
        (new_sftp_err env) (os_open_err env) f (sftp_create_err env)
        (sftp_open_err env) (copy_fault env) (sync_err env) (close_err env)
        (exec_effect env) (sftp_leaks_session env).

Definition with_close_err (f : handle -> option error) (env : Env) : Env :=
  mkEnv (known_hosts env) (dial_err env) (new_session_err env) (exec env)
        (new_sftp_err env) (os_open_err env) (os_create_err env)
        (sftp_create_err env) (sftp_open_err env) (copy_fault env) (sync_err env) f
        (exec_effect env) (sftp_leaks_session env).

(** Only the sync after the copy fails. *)
Definition env_sync_fails : Env :=
  with_sync_err (Some (ErrOther "sync: input/output error")) env_ok.

(** A [Cmd.CombinedOutput] for the samples: it hands the command's path to
    the session. *)
Definition sample_Cmd_CombinedOutput (cmd : Cmd.t) : M (GoBytes * option error) :=
  Session_CombinedOutput (Cmd.Session cmd) (Cmd.Path cmd).

(** A configuration for the samples. *)
Definition sample_config : Config.t :=
  {| Config.Auth := [];
     Config.Protocol := "tcp";
     Config.Addr := "example.com";
     Config.Port := 2222;
     Config.ClientConfig :=
       Some {| ssh.ClientConfig.User := "root";
               ssh.ClientConfig.Auth := [];
               ssh.ClientConfig.Timeout := 20000000000;
               ssh.ClientConfig.HostKeyCallback :=
                 Some (ssh.KnownHostsCallback "/home/user/.ssh/known_hosts") |} |}.

(** The remote side refuses to create files. *)
Definition env_create_refused : Env :=
  with_sftp_create_err (fun _ => Some (ErrOther "sftp: no such directory")) env_ok.

(** The copy breaks after two bytes; a later sync would fail too. *)
Definition env_copy_breaks : Env :=
  with_sync_err (Some (ErrOther "sync: input/output error"))
    (with_copy_fault (Some (2, ErrOther "sftp: connection lost")) env_ok).

(** A local disk holding [/tmp/a.txt] with the four bytes of [data]; an
    empty remote disk. *)
Definition sample_world : World :=
  init_world (<["/tmp/a.txt" := [x64; x61; x74; x61]]> ∅) ∅.

(** The same with a remote file [/remote/a.txt] of six bytes. *)
Definition sample_world_remote : World :=
  init_world (<["/tmp/a.txt" := [x64; x61; x74; x61]]> ∅)
             (<["/remote/a.txt" := [x72; x65; x6d; x6f; x74; x65]]> ∅).

Definition sample_client : Client.t := {| Client.Client := 0; Client.Config := None |}.

(** ** Resource discipline *)

(** A computation that leaves the set of open handles as it found it. *)
Definition keeps_open {A} (m : M A) : Prop :=
  forall env w, open (world (m env w)) = open w.

(** An acquisition: on success it returns the next handle and opens
    exactly that one; on failure it opens nothing. *)
Definition acquires (acq : M (Result handle)) : Prop :=
  forall env w,
    match outcome (acq env w) with
    | Ret (Ok h) =>
        h = new_handle w /\
        exists r, open (world (acq env w)) = <[h := r]> (open w)
    | _ => open (world (acq env w)) = open w
    end.

(** The handle an event hands out, if any. *)
Definition acquired (ev : Event) : option handle :=
  match ev with
  | EvDial _ _ _ (Ok h) | EvNewSession _ (Ok h) | EvNewSftp _ (Ok h)
  | EvOsOpen _ (Ok h) | EvOsCreate _ (Ok h)
  | EvSftpCreate _ _ (Ok h) | EvSftpOpen _ _ (Ok h) => Some h
  | _ => None
  end.

(** The handles closed by a trace, in order. *)
Definition closed_handles (evs : list Event) : list handle :=
  omap (fun ev => match ev with EvClose h _ => Some h | _ => None end) evs.

(** The handles handed out by a trace, in order. *)
Definition acquired_handles (evs : list Event) : list handle := omap acquired evs.

(** Splits membership in an explicit trace into its cases. *)
Ltac in_trace H :=
  simpl in H;
  repeat (destruct H as [H | H]; [try discriminate H | ]);
  try contradiction.

(** ** NewConfig and NewClient *)

Lemma NewConfig_unfold user addr port auth env w :
  NewConfig user addr port auth env w =
  match known_hosts env with
  | Ok file =>
      mkRes w []
        (Ret (Some {| Config.Auth := auth;
                      Config.Protocol := "tcp";
                      Config.Addr := addr;
                      Config.Port := 22;
                      Config.ClientConfig :=
                        Some {| ssh.ClientConfig.User := user;
                                ssh.ClientConfig.Auth := auth;
                                ssh.ClientConfig.Timeout := DefaultTimeout w;
                                ssh.ClientConfig.HostKeyCallback :=
                                  Some (ssh.KnownHostsCallback file) |} |},
              None))
  | Err e => mkRes w [] (Ret (None, Some e))
  end.
Proof.
  unfold NewConfig, bind, DefaultKnownHosts, get_DefaultTimeout, ret.
  destruct (known_hosts env); reflexivity.
Qed.

(** Whatever port is asked for, the configuration carries port 22. *)
Lemma NewConfig_port_constant user addr port auth env w cfg e :
  outcome (NewConfig user addr port auth env w) = Ret (Some cfg, e) ->
  Config.Port cfg = 22%N.
Proof.
  rewrite NewConfig_unfold.
  destruct (known_hosts env); simpl; intros H; [| discriminate].
  injection H as <- _. reflexivity.
Qed.

(** C1: the port handed to [NewConfig] is dropped.  Asked for port 2222,
    the returned configuration carries port 22, and [NewClient] on it
    dials [example.com:22]. *)
Example NewConfig_port_2222 :
  exists cfg,
    outcome (NewConfig "root" "example.com" 2222 [] env_ok sample_world)
      = Ret (Some cfg, None) /\
    Config.Port cfg = 22%N /\
    Config.Port cfg <> 2222%N /\
    events (NewClient (Some cfg) env_ok sample_world)
      = [EvDial "tcp" "example.com:22" (Config.ClientConfig cfg) (Ok 0)].
Proof.
  eexists. split; [reflexivity |]. split; [reflexivity |].
  split; [discriminate | reflexivity].
Qed.

(** C7: a configuration that [NewConfig] returns without error has
    protocol [tcp], carries the supplied user and auth method, and its
    connect timeout is the value [DefaultTimeout] has at the call; the
    variable starts out at 20 seconds. *)
Theorem NewConfig_defaults user addr port auth env w ocfg :
  outcome (NewConfig user addr port auth env w) = Ret (ocfg, None) ->
  (exists cfg cc,
      ocfg = Some cfg /\
      Config.Protocol cfg = "tcp" /\
      Config.Auth cfg = auth /\
      Config.ClientConfig cfg = Some cc /\
      ssh.ClientConfig.User cc = user /\
      ssh.ClientConfig.Auth cc = auth /\
      ssh.ClientConfig.Timeout cc = DefaultTimeout w) /\
  (forall lfs rfs, DefaultTimeout (init_world lfs rfs) = (20 * 1000000000)%Z).
Proof.
  rewrite NewConfig_unfold. intros H. split; [| reflexivity].
  destruct (known_hosts env) as [file | e]; simpl in H; [| discriminate].
  injection H as <-. eexists _, _. repeat split.
Qed.

Lemma NewConfig_defaults_witness :
  outcome (NewConfig "root" "example.com" 22 [ssh.AuthMethodRef 1] env_ok sample_world)
    = Ret (Some {| Config.Auth := [ssh.AuthMethodRef 1];
                   Config.Protocol := "tcp";
                   Config.Addr := "example.com";
                   Config.Port := 22;
                   Config.ClientConfig :=
                     Some {| ssh.ClientConfig.User := "root";
                             ssh.ClientConfig.Auth := [ssh.AuthMethodRef 1];
                             ssh.ClientConfig.Timeout := 20000000000;
                             ssh.ClientConfig.HostKeyCallback :=
                               Some (ssh.KnownHostsCallback "/home/user/.ssh/known_hosts") |} |},
           None) /\
  (exists cfg cc,
      Some {| Config.Auth := [ssh.AuthMethodRef 1];
              Config.Protocol := "tcp";
              Config.Addr := "example.com";
              Config.Port := 22;
              Config.ClientConfig :=
                Some {| ssh.ClientConfig.User := "root";
                        ssh.ClientConfig.Auth := [ssh.AuthMethodRef 1];
                        ssh.ClientConfig.Timeout := 20000000000;
                        ssh.ClientConfig.HostKeyCallback :=
                          Some (ssh.KnownHostsCallback "/home/user/.ssh/known_hosts") |} |}
        = Some cfg /\
      Config.Protocol cfg = "tcp" /\
      Config.Auth cfg = [ssh.AuthMethodRef 1] /\
      Config.ClientConfig cfg = Some cc /\
      ssh.ClientConfig.User cc = "root" /\
      ssh.ClientConfig.Auth cc = [ssh.AuthMethodRef 1] /\
      ssh.ClientConfig.Timeout cc = DefaultTimeout sample_world).
Proof.
  split; [reflexivity |].
  apply (NewConfig_defaults "root" "example.com" 22 [ssh.AuthMethodRef 1]
                            env_ok sample_world).
  reflexivity.
Defined.

Lemma NewClient_dial_config cfg env w network a cc r :
  In (EvDial network a cc r) (events (NewClient (Some cfg) env w)) ->
  cc = Config.ClientConfig cfg.
Proof.
  unfold NewClient, bind, ssh_Dial, ret.
  destruct (Config.ClientConfig cfg) as [c0 |]; simpl; [| tauto].
  destruct (dial_err env); simpl; intros [H | []]; congruence.
Qed.

(** C8: when [DefaultKnownHosts] reports an error, [NewConfig] returns
    that error and a nil configuration.  A configuration returned without
    error carries a non-nil host-key callback; [NewConfig] itself dials
    nothing, and every dial [NewClient] makes from that configuration is
    handed the callback. *)
Theorem NewConfig_trust_callback user addr port auth env w :
  (forall cb e,
      outcome (DefaultKnownHosts env w) = Ret (cb, Some e) ->
      outcome (NewConfig user addr port auth env w) = Ret (None, Some e)) /\
  (forall ocfg,
      outcome (NewConfig user addr port auth env w) = Ret (ocfg, None) ->
      exists cfg cc cb,
        ocfg = Some cfg /\
        Config.ClientConfig cfg = Some cc /\
        ssh.ClientConfig.HostKeyCallback cc = Some cb /\
        events (NewConfig user addr port auth env w) = [] /\
        forall env' w' network a cc' r,
          In (EvDial network a cc' r) (events (NewClient ocfg env' w')) ->
          exists cc0, cc' = Some cc0 /\
                      ssh.ClientConfig.HostKeyCallback cc0 = Some cb).
Proof.
  rewrite NewConfig_unfold. unfold DefaultKnownHosts. split.
  - intros cb e. destruct (known_hosts env) as [file | e0]; simpl; congruence.
  - intros ocfg. destruct (known_hosts env) as [file | e0]; simpl; [| discriminate].
    intros H. injection H as <-. eexists _, _, _.
    repeat (split; [reflexivity |]).
    intros env' w' network a cc' r Hin.
    apply NewClient_dial_config in Hin. subst cc'. simpl. eauto.
Qed.

Lemma NewConfig_trust_callback_witness :
  outcome (NewConfig "root" "example.com" 22 []
             (with_known_hosts (Err (ErrOther "known_hosts: no such file")) env_ok)
             sample_world)
    = Ret (None, Some (ErrOther "known_hosts: no such file")) /\
  exists cfg cc cb,
    outcome (NewConfig "root" "example.com" 22 [] env_ok sample_world)
      = Ret (Some cfg, None) /\
    Config.ClientConfig cfg = Some cc /\
    ssh.ClientConfig.HostKeyCallback cc = Some cb.
Proof.
  split.
  - apply (proj1 (NewConfig_trust_callback "root" "example.com" 22 []
                    (with_known_hosts (Err (ErrOther "known_hosts: no such file")) env_ok)
                    sample_world) None).
    reflexivity.
  - destruct (proj2 (NewConfig_trust_callback "root" "example.com" 22 []
                       env_ok sample_world) _ eq_refl)
      as (cfg & cc & cb & H1 & H2 & H3 & _).
    exists cfg, cc, cb. split; [| auto].
    rewrite <- H1. reflexivity.
Defined.

(** ** Handles *)

Lemma new_handle_fresh w : open w !! new_handle w = None.
Proof. unfold new_handle. apply not_elem_of_dom. apply is_fresh. Qed.

Lemma release_acquire r w : release (new_handle w) (acquire r w) = w.
Proof.
  destruct w as [t lf rf o]. unfold release, acquire, with_open, new_handle; simpl.
  f_equal. apply delete_insert_id. apply not_elem_of_dom. apply is_fresh.
Qed.

Lemma lookup_acquire_new r w : open (acquire r w) !! new_handle w = Some r.
Proof. simpl. apply lookup_insert_eq. Qed.

Lemma lookup_acquire_old r w h x :
  open w !! h = Some x -> open (acquire r w) !! h = Some x.
Proof.
  intros H. simpl. rewrite lookup_insert_ne; [exact H |].
  intros Heq. rewrite <- Heq, new_handle_fresh in H. discriminate.
Qed.

Lemma open_write h data w : open (write h data w) = open w.
Proof. unfold write. destruct (open w !! h) as [[] |]; reflexivity. Qed.

Lemma keeps_open_ret {A} (a : A) : keeps_open (ret a).
Proof. intros env w. reflexivity. Qed.

Lemma keeps_open_bind {A B} (m : M A) (k : A -> M B) :
  keeps_open m -> (forall a, keeps_open (k a)) -> keeps_open (bind m k).
Proof.
  intros Hm Hk env w. unfold bind.
  destruct (outcome (m env w)) eqn:E; simpl.
  - rewrite Hk. apply Hm.
  - apply Hm.
Qed.

(** The shape of every acquisition in [client.go]: acquire, return the
    error if there is one, otherwise defer the close and go on. *)
Lemma keeps_open_bracket {A} (acq : M (Result handle))
      (on_err : error -> M A) (body : handle -> M A) :
  acquires acq ->
  (forall e, keeps_open (on_err e)) ->
  (forall h, keeps_open (body h)) ->
  keeps_open (r <- acq ;;
              match r with
              | Err e => on_err e
              | Ok h => defer (Close h) (body h)
              end).
Proof.
  intros Hacq Herr Hbody env w. specialize (Hacq env w).
  unfold bind. destruct (outcome (acq env w)) as [[h | e] | v]; simpl.
  - destruct Hacq as [-> [r Hr]].
    rewrite Hbody, Hr. apply delete_insert_id, new_handle_fresh.
  - rewrite Herr. exact Hacq.
  - exact Hacq.
Qed.

Lemma acquires_NewSession c : acquires (NewSession c).
Proof.
  intros env w. unfold NewSession.
  destruct (new_session_err env); simpl; eauto.
Qed.

Lemma acquires_os_Open path : acquires (os_Open path).
Proof.
  intros env w. unfold os_Open.
  destruct (os_open_err env path); simpl; [reflexivity |].
  destruct (local_fs w !! path); simpl; eauto.
Qed.

Lemma acquires_os_Create path : acquires (os_Create path).
Proof.
  intros env w. unfold os_Create.
  destruct (os_create_err env path); simpl; eauto.
Qed.

Lemma acquires_sftp_Create ftp path : acquires (sftp_Create ftp path).
Proof.
  intros env w. unfold sftp_Create.
  destruct (sftp_create_err env path); simpl; eauto.
Qed.

Lemma acquires_sftp_Open ftp path : acquires (sftp_Open ftp path).
Proof.
  intros env w. unfold sftp_Open.
  destruct (sftp_open_err env path); simpl; [reflexivity |].
  destruct (remote_fs w !! path); simpl; eauto.
Qed.

Lemma keeps_open_io_Copy dst src : keeps_open (io_Copy dst src).
Proof.
  intros env w. unfold io_Copy.
  destruct (copy_fault env) as [[k e] |]; simpl; apply open_write.
Qed.

Lemma keeps_open_File_Sync f : keeps_open (File_Sync f).
Proof. intros env w. reflexivity. Qed.

Lemma keeps_open_CombinedOutput sess cmd : keeps_open (Session_CombinedOutput sess cmd).
Proof.
  intros env w. unfold Session_CombinedOutput. destruct (exec env cmd); reflexivity.
Qed.

Lemma keeps_open_Run c cmd : keeps_open (Run c cmd).
Proof.
  apply keeps_open_bracket.
  - apply acquires_NewSession.
  - intros e. apply keeps_open_ret.
  - intros h. apply keeps_open_CombinedOutput.
Qed.

(** ** Run *)

(** C3: when [NewSession] hands out a session, [Run] performs exactly
    three steps (open the session, collect the output, close the session),
    the close coming last; the session is not open when [Run] is left, and
    [Run] leaves the way output collection does: returning its pair, or
    panicking with its panic.  When [NewSession] fails, [Run] returns nil
    output and that error, having done nothing else. *)
Theorem Run_closes_session c cmd env w :
  (forall sess,
      outcome (NewSession c env w) = Ret (Ok sess) ->
      events (Run c cmd env w)
        = [EvNewSession (Client.Client c) (Ok sess);
           EvCombinedOutput sess cmd;
           EvClose sess (close_err env sess)] /\
      open (world (Run c cmd env w)) !! sess = None /\
      outcome (Run c cmd env w)
        = outcome (Session_CombinedOutput sess cmd env (world (NewSession c env w)))) /\
  (forall e,
      outcome (NewSession c env w) = Ret (Err e) ->
      outcome (Run c cmd env w) = Ret (None, Some e) /\
      events (Run c cmd env w) = [EvNewSession (Client.Client c) (Err e)] /\
      world (Run c cmd env w) = w).
Proof.
  split.
  - intros sess H. rewrite keeps_open_Run. revert H.
    unfold Run, bind, defer, Close, NewSession, Session_CombinedOutput, ret.
    destruct (new_session_err env); simpl; [discriminate |].
    intros H. injection H as <-.
    split; [| split].
    + destruct (exec env cmd); reflexivity.
    + apply new_handle_fresh.
    + destruct (exec env cmd); reflexivity.
  - intros e. unfold Run, bind, NewSession, ret.
    destruct (new_session_err env); simpl; [| discriminate].
    intros H. injection H as <-. auto.
Qed.

(** The panicking exit path, and the failing open, on the samples. *)
Lemma Run_closes_session_witness :
  (events (Run sample_client "boom" env_ok sample_world)
     = [EvNewSession 0 (Ok 0); EvCombinedOutput 0 "boom"; EvClose 0 None] /\
   open (world (Run sample_client "boom" env_ok sample_world)) !! 0 = None /\
   outcome (Run sample_client "boom" env_ok sample_world)
     = Panic "output collection panicked") /\
  outcome (Run sample_client "echo hi"
             (with_new_session_err (Some (ErrOther "ssh: rejected")) env_ok)
             sample_world)
    = Ret (None, Some (ErrOther "ssh: rejected")).
Proof.
  split.
  - apply (proj1 (Run_closes_session sample_client "boom" env_ok sample_world) 0).
    reflexivity.
  - apply (proj2 (Run_closes_session sample_client "echo hi"
                    (with_new_session_err (Some (ErrOther "ssh: rejected")) env_ok)
                    sample_world) (ErrOther "ssh: rejected")).
    reflexivity.
Defined.

(** C5: when the session opens and the remote process exits with a
    non-zero status after writing [out], [Run] returns a non-nil error (the
    exit error of that status) together with a slice holding exactly
    [out]. *)
Theorem Run_nonzero_exit c cmd env w out status :
  new_session_err env = None ->
  exec env cmd = Exited out status ->
  status <> 0%Z ->
  exists o e,
    outcome (Run c cmd env w) = Ret (o, Some e) /\
    slice_bytes o = out /\
    e = ExitError status.
Proof.
  intros Hs Hx Hne.
  exists (Buffer_Bytes out), (ExitError status).
  unfold Run, bind, defer, Close, NewSession, Session_CombinedOutput, ret.
  rewrite Hs; simpl. rewrite Hx; simpl.
  destruct (Z.eqb_spec status 0) as [-> | _]; [contradiction |].
  split; [reflexivity |]. split; [| reflexivity].
  destruct out; reflexivity.
Qed.

Lemma Run_nonzero_exit_witness :
  exists o e,
    outcome (Run sample_client "fail" env_ok sample_world) = Ret (o, Some e) /\
    slice_bytes o = [x6f; x6f; x70; x73; x0a] /\
    e = ExitError 2.
Proof.
  apply (Run_nonzero_exit sample_client "fail" env_ok sample_world
                          [x6f; x6f; x70; x73; x0a] 2);
    [reflexivity | reflexivity | discriminate].
Defined.

(** ** Files behind handles *)

Lemma release_acquire_remote_fs r f w :
  release (new_handle w) (with_remote_fs f (acquire r w)) = with_remote_fs f w.
Proof.
  change (with_remote_fs f (release (new_handle w) (acquire r w)) = with_remote_fs f w).
  now rewrite release_acquire.
Qed.

Lemma release_acquire_local_fs r f w :
  release (new_handle w) (with_local_fs f (acquire r w)) = with_local_fs f w.
Proof.
  change (with_local_fs f (release (new_handle w) (acquire r w)) = with_local_fs f w).
  now rewrite release_acquire.
Qed.

Lemma contents_local w h p :
  open w !! h = Some (ResLocalFile p) -> contents w h = default [] (local_fs w !! p).
Proof. intros H. unfold contents. now rewrite H. Qed.

Lemma contents_remote w h p :
  open w !! h = Some (ResRemoteFile p) -> contents w h = default [] (remote_fs w !! p).
Proof. intros H. unfold contents. now rewrite H. Qed.

Lemma write_local w h p data :
  open w !! h = Some (ResLocalFile p) ->
  write h data w
  = with_local_fs (<[p := (default [] (local_fs w !! p) ++ data)%list]> (local_fs w)) w.
Proof. intros H. unfold write. now rewrite H. Qed.

Lemma write_remote w h p data :
  open w !! h = Some (ResRemoteFile p) ->
  write h data w
  = with_remote_fs (<[p := (default [] (remote_fs w !! p) ++ data)%list]> (remote_fs w)) w.
Proof. intros H. unfold write. now rewrite H. Qed.

Lemma new_handle_acquire_ne r w : new_handle w <> new_handle (acquire r w).
Proof.
  intros Heq. pose proof (new_handle_fresh (acquire r w)) as H.
  rewrite <- Heq, lookup_acquire_new in H. discriminate.
Qed.

(** Closing the older of two handles leaves the younger one open. *)
Lemma release_under_acquire r r' w :
  release (new_handle w) (acquire r' (acquire r w))
  = with_open (<[new_handle (acquire r w) := r']> (open w)) w.
Proof.
  pose proof (new_handle_acquire_ne r w) as Hne.
  pose proof (new_handle_fresh w) as Hf.
  destruct w as [t lf rf o]. unfold release, acquire, with_open in *; simpl in *.
  f_equal. rewrite delete_insert_ne by exact Hne.
  now rewrite delete_insert_id.
Qed.

(** ** Upload, case by case *)

(** The complete behaviour of [Upload]: which step stops it, what it has
    done by then, and the world it leaves. *)
Lemma Upload_cases c lp rp env w :
  let conn := Client.Client c in
  let local := new_handle w in
  let w1 := acquire (ResLocalFile lp) w in
  let ftp := new_handle w1 in
  let w2 := acquire (ResSftp conn) w1 in
  let remote := new_handle w2 in
  let cl h := EvClose h (close_err env h) in
  Upload c lp rp env w =
  match os_open_err env lp with
  | Some e => mkRes w [EvOsOpen lp (Err e)] (Ret (Some e))
  | None =>
  match local_fs w !! lp with
  | None => mkRes w [EvOsOpen lp (Err (ErrNotExist lp))] (Ret (Some (ErrNotExist lp)))
  | Some b =>
  match new_sftp_err env with
  | Some e =>
      mkRes (if sftp_leaks_session env
             then with_open (<[ftp := ResSession conn]> (open w)) w
             else w)
            [EvOsOpen lp (Ok local); EvNewSftp conn (Err e); cl local] (Ret (Some e))
  | None =>
  match sftp_create_err env rp with
  | Some e =>
      mkRes w
        [EvOsOpen lp (Ok local); EvNewSftp conn (Ok ftp);
         EvSftpCreate ftp rp (Err e); cl ftp; cl local]
        (Ret (Some e))
  | None =>
  match copy_fault env with
  | Some (k, e) =>
      mkRes (with_remote_fs (<[rp := take k b]> (remote_fs w)) w)
        [EvOsOpen lp (Ok local); EvNewSftp conn (Ok ftp);
         EvSftpCreate ftp rp (Ok remote);
         EvCopy remote local (length (take k b)) (Some e);
         cl remote; cl ftp; cl local]
        (Ret (Some e))
  | None =>
      mkRes (with_remote_fs (<[rp := b]> (remote_fs w)) w)
        [EvOsOpen lp (Ok local); EvNewSftp conn (Ok ftp);
         EvSftpCreate ftp rp (Ok remote);
         EvCopy remote local (length b) None;
         cl remote; cl ftp; cl local]
        (Ret None)
  end end end end end.
Proof.
  intros conn local w1 ftp w2 remote cl.
  unfold Upload, bind, defer, os_Open, NewSftp, sftp_Create, io_Copy, Close, ret.
  destruct (os_open_err env lp) as [e |]; simpl; [reflexivity |].
  destruct (local_fs w !! lp) as [b |] eqn:Hb; simpl; [| reflexivity].
  destruct (new_sftp_err env) as [e |]; simpl.
  { destruct (sftp_leaks_session env); f_equal.
    - apply release_under_acquire.
    - apply release_acquire. }
  destruct (sftp_create_err env rp) as [e |]; simpl.
  { fold local w1. fold ftp. fold w2. unfold w2, ftp.
    rewrite release_acquire. unfold w1, local. now rewrite release_acquire. }
  set (w3 := acquire (ResRemoteFile rp) (with_remote_fs (<[rp:=[]]> (remote_fs w)) w2)).
  assert (Hlocal : open w3 !! local = Some (ResLocalFile lp)).
  { unfold w3. apply lookup_acquire_old. change (open w2 !! local = Some (ResLocalFile lp)).
    unfold w2. apply lookup_acquire_old. apply lookup_acquire_new. }
  assert (Hremote : open w3 !! remote = Some (ResRemoteFile rp)).
  { unfold w3. apply (lookup_acquire_new _ (with_remote_fs (<[rp:=[]]> (remote_fs w)) w2)). }
  assert (Hdata : contents w3 local = b).
  { rewrite (contents_local _ _ _ Hlocal). change (local_fs w3) with (local_fs w).
    now rewrite Hb. }
  assert (Hfin : forall data,
             release local (release ftp (release remote (write remote data w3)))
             = with_remote_fs (<[rp := data]> (remote_fs w)) w).
  { intros data. rewrite (write_remote _ _ _ _ Hremote).
    change (remote_fs w3) with (<[rp:=[]]> (remote_fs w)).
    rewrite lookup_insert_eq, insert_insert_eq. simpl.
    set (f := <[rp:=data]> (remote_fs w)).
    change (release local (release ftp
              (release (new_handle w2) (with_remote_fs f (acquire (ResRemoteFile rp) w2))))
            = with_remote_fs f w).
    rewrite release_acquire_remote_fs. unfold w2, ftp.
    rewrite release_acquire_remote_fs. unfold w1, local.
    now rewrite release_acquire_remote_fs. }
  unfold w3, remote, w2, ftp, w1, local, conn, cl in *. clear Hlocal Hremote.
  destruct (copy_fault env) as [[k e] |]; simpl;
    rewrite Hdata; f_equal; apply Hfin.
Qed.

(** ** Download, case by case *)

(** The complete behaviour of [Download]. *)
Lemma Download_cases c rp lp env w :
  let conn := Client.Client c in
  let local := new_handle w in
  let w1 := acquire (ResLocalFile lp) w in
  let ftp := new_handle w1 in
  let w2 := acquire (ResSftp conn) w1 in
  let remote := new_handle w2 in
  let cl h := EvClose h (close_err env h) in
  let emptied := with_local_fs (<[lp := []]> (local_fs w)) w in
  Download c rp lp env w =
  match os_create_err env lp with
  | Some e => mkRes w [EvOsCreate lp (Err e)] (Ret (Some e))
  | None =>
  match new_sftp_err env with
  | Some e =>
      mkRes (if sftp_leaks_session env
             then with_open (<[ftp := ResSession conn]> (open w)) emptied
             else emptied)
            [EvOsCreate lp (Ok local); EvNewSftp conn (Err e); cl local]
            (Ret (Some e))
  | None =>
  match sftp_open_err env rp with
  | Some e =>
      mkRes emptied
        [EvOsCreate lp (Ok local); EvNewSftp conn (Ok ftp);
         EvSftpOpen ftp rp (Err e); cl ftp; cl local]
        (Ret (Some e))
  | None =>
  match remote_fs w !! rp with
  | None =>
      mkRes emptied
        [EvOsCreate lp (Ok local); EvNewSftp conn (Ok ftp);
         EvSftpOpen ftp rp (Err (ErrNotExist rp)); cl ftp; cl local]
        (Ret (Some (ErrNotExist rp)))
  | Some b =>
  match copy_fault env with
  | Some (k, e) =>
      mkRes (with_local_fs (<[lp := take k b]> (local_fs w)) w)
        [EvOsCreate lp (Ok local); EvNewSftp conn (Ok ftp);
         EvSftpOpen ftp rp (Ok remote);
         EvCopy local remote (length (take k b)) (Some e);
         cl remote; cl ftp; cl local]
        (Ret (Some e))
  | None =>
      mkRes (with_local_fs (<[lp := b]> (local_fs w)) w)
        [EvOsCreate lp (Ok local); EvNewSftp conn (Ok ftp);
         EvSftpOpen ftp rp (Ok remote);
         EvCopy local remote (length b) None;
         EvSync local (sync_err env);
         cl remote; cl ftp; cl local]
        (Ret (sync_err env))
  end end end end end.
Proof.
  intros conn local w1 ftp w2 remote cl emptied.
  set (t1 := acquire (ResLocalFile lp) emptied).
  set (t2 := acquire (ResSftp conn) t1).
  set (t3 := acquire (ResRemoteFile rp) t2).
  assert (H1 : release (new_handle emptied) t1 = emptied)
    by apply release_acquire.
  assert (H2 : release (new_handle t1) t2 = t1) by apply release_acquire.
  assert (Hlocal : open t3 !! new_handle emptied = Some (ResLocalFile lp)).
  { unfold t3, t2. do 2 apply lookup_acquire_old. apply lookup_acquire_new. }
  assert (Hremote : open t3 !! new_handle t2 = Some (ResRemoteFile rp))
    by apply lookup_acquire_new.
  assert (Hfin : forall data,
             release (new_handle emptied)
               (release (new_handle t1)
                  (release (new_handle t2) (write (new_handle emptied) data t3)))
             = with_local_fs (<[lp := data]> (local_fs w)) w).
  { intros data. rewrite (write_local _ _ _ _ Hlocal).
    change (local_fs t3) with (<[lp:=[]]> (local_fs w)).
    rewrite lookup_insert_eq, insert_insert_eq. simpl.
    set (f := <[lp:=data]> (local_fs w)).
    unfold t3. rewrite release_acquire_local_fs.
    unfold t2. rewrite release_acquire_local_fs.
    unfold t1. rewrite release_acquire_local_fs. reflexivity. }
  unfold Download, bind, defer, os_Create, NewSftp, sftp_Open, io_Copy, File_Sync,
    Close, ret.
  destruct (os_create_err env lp) as [e |]; simpl; [reflexivity |].
  destruct (new_sftp_err env) as [e |]; simpl.
  { destruct (sftp_leaks_session env); f_equal.
    - apply (release_under_acquire (ResLocalFile lp) (ResSession conn) emptied).
    - exact H1. }
  destruct (sftp_open_err env rp) as [e |]; simpl.
  { f_equal. change (release (new_handle emptied) (release (new_handle t1) t2) = emptied).
    now rewrite H2. }
  destruct (remote_fs w !! rp) as [b |] eqn:Hb; simpl.
  2:{ f_equal. change (release (new_handle emptied) (release (new_handle t1) t2) = emptied).
      now rewrite H2. }
  assert (Hdata : contents t3 (new_handle t2) = b).
  { rewrite (contents_remote _ _ _ Hremote). change (remote_fs t3) with (remote_fs w).
    now rewrite Hb. }
  destruct (copy_fault env) as [[k e] |]; simpl.
  - change (contents _ _) with (contents t3 (new_handle t2)). rewrite Hdata.
    f_equal. apply Hfin.
  - change (contents _ _) with (contents t3 (new_handle t2)). rewrite Hdata.
    f_equal. apply Hfin.
Qed.

Lemma lookup_before_acquire r w h :
  open (acquire r w) !! h = None -> open w !! h = None.
Proof. simpl. intros H. now apply lookup_insert_None in H. Qed.

Lemma new_handle_fresh2 r w : open w !! new_handle (acquire r w) = None.
Proof. apply (lookup_before_acquire r), new_handle_fresh. Qed.

Lemma new_handle_fresh3 r r' w :
  open w !! new_handle (acquire r' (acquire r w)) = None.
Proof. apply (lookup_before_acquire r), new_handle_fresh2. Qed.

(** ** Upload *)

(** C4: on every exit path [Upload] leaves the local file system
    untouched, and every handle it was handed (local file, sftp client,
    remote file) is closed in its trace and not open afterwards.  The set
    of open handles is the one [Upload] started with, unless the sftp client
    could not be set up and left its own session behind, to which [Upload]
    holds no handle.  When creating the remote file fails, [Upload] returns
    the error of that create, after closing the sftp client and the local
    file, with the set of open handles as it was. *)
Theorem Upload_releases_resources c lp rp env w :
  (local_fs (world (Upload c lp rp env w)) = local_fs w /\
   forall ev h,
     In ev (events (Upload c lp rp env w)) ->
     acquired ev = Some h ->
     In h (closed_handles (events (Upload c lp rp env w))) /\
     open (world (Upload c lp rp env w)) !! h = None) /\
  (sftp_leaks_session env = false \/
   (forall e, ~ In (EvNewSftp (Client.Client c) (Err e)) (events (Upload c lp rp env w))) ->
   open (world (Upload c lp rp env w)) = open w) /\
  (forall ftp e,
      In (EvSftpCreate ftp rp (Err e)) (events (Upload c lp rp env w)) ->
      outcome (Upload c lp rp env w) = Ret (Some e) /\
      open (world (Upload c lp rp env w)) = open w /\
      exists local,
        events (Upload c lp rp env w)
        = [EvOsOpen lp (Ok local);
           EvNewSftp (Client.Client c) (Ok ftp);
           EvSftpCreate ftp rp (Err e);
           EvClose ftp (close_err env ftp);
           EvClose local (close_err env local)]).
Proof.
  pose proof (Upload_cases c lp rp env w) as E. cbv zeta in E. rewrite E. clear E.
  pose proof (new_handle_fresh w) as F1.
  pose proof (new_handle_fresh2 (ResLocalFile lp) w) as F2.
  pose proof (new_handle_fresh3 (ResLocalFile lp) (ResSftp (Client.Client c)) w) as F3.
  pose proof (new_handle_acquire_ne (ResLocalFile lp) w) as Hne.
  split; [split |split].
  - destruct (os_open_err env lp); [reflexivity |].
    destruct (local_fs w !! lp); [| reflexivity].
    destruct (new_sftp_err env);
      [destruct (sftp_leaks_session env); reflexivity |].
    destruct (sftp_create_err env rp); [reflexivity |].
    destruct (copy_fault env) as [[k e] |]; reflexivity.
  - intros ev h Hin Hacq.
    destruct (os_open_err env lp); [in_trace Hin; subst ev; discriminate |].
    destruct (local_fs w !! lp); [| in_trace Hin; subst ev; discriminate].
    destruct (new_sftp_err env).
    { in_trace Hin; subst ev; try discriminate. injection Hacq as <-.
      split; [simpl; auto |].
      destruct (sftp_leaks_session env); simpl; [| exact F1].
      rewrite lookup_insert_ne by congruence. exact F1. }
    destruct (sftp_create_err env rp);
      [in_trace Hin; subst ev; try discriminate; injection Hacq as <-; simpl; auto |].
    destruct (copy_fault env) as [[k e] |];
      in_trace Hin; subst ev; try discriminate; injection Hacq as <-; simpl; auto.
  - intros Hleak.
    destruct (os_open_err env lp); [reflexivity |].
    destruct (local_fs w !! lp); [| reflexivity].
    destruct (new_sftp_err env).
    { destruct Hleak as [-> | Hno]; [reflexivity |].
      exfalso. eapply Hno. simpl. eauto. }
    destruct (sftp_create_err env rp); [reflexivity |].
    destruct (copy_fault env) as [[k e] |]; reflexivity.
  - intros ftp e Hin.
    destruct (os_open_err env lp); [in_trace Hin |].
    destruct (local_fs w !! lp); [| in_trace Hin].
    destruct (new_sftp_err env); [in_trace Hin |].
    destruct (sftp_create_err env rp).
    + in_trace Hin. injection Hin as <- <-. simpl. eauto.
    + destruct (copy_fault env) as [[k e'] |]; in_trace Hin.
Qed.

(** Uploading to a remote path whose creation is refused. *)
Lemma Upload_releases_resources_witness :
  In (EvSftpCreate 1 "/missing/a.txt" (Err (ErrOther "sftp: no such directory")))
     (events (Upload sample_client "/tmp/a.txt" "/missing/a.txt"
                env_create_refused sample_world)) /\
  outcome (Upload sample_client "/tmp/a.txt" "/missing/a.txt"
             env_create_refused sample_world)
    = Ret (Some (ErrOther "sftp: no such directory")) /\
  In 0 (closed_handles (events (Upload sample_client "/tmp/a.txt" "/missing/a.txt"
                                  env_create_refused sample_world))) /\
  open (world (Upload sample_client "/tmp/a.txt" "/missing/a.txt"
                 env_create_refused sample_world)) !! 0 = None /\
  open (world (Upload sample_client "/tmp/a.txt" "/missing/a.txt"
                 env_create_refused sample_world)) = open sample_world.
Proof.
  assert (Hin : In (EvSftpCreate 1 "/missing/a.txt"
                      (Err (ErrOther "sftp: no such directory")))
                   (events (Upload sample_client "/tmp/a.txt" "/missing/a.txt"
                              env_create_refused sample_world)))
    by (vm_compute; auto).
  assert (Hopen : In (EvOsOpen "/tmp/a.txt" (Ok 0))
                     (events (Upload sample_client "/tmp/a.txt" "/missing/a.txt"
                                env_create_refused sample_world)))
    by (vm_compute; auto).
  destruct (proj2 (proj1 (Upload_releases_resources sample_client "/tmp/a.txt"
                            "/missing/a.txt" env_create_refused sample_world))
                  (EvOsOpen "/tmp/a.txt" (Ok 0)) 0 Hopen eq_refl)
    as [Hclosed Hgone].
  split; [exact Hin |]. split; [| split; [exact Hclosed | split; [exact Hgone |]]].
  - exact (proj1 (proj2 (proj2 (Upload_releases_resources sample_client "/tmp/a.txt"
                                  "/missing/a.txt" env_create_refused sample_world))
                        _ _ Hin)).
  - apply (proj1 (proj2 (Upload_releases_resources sample_client "/tmp/a.txt"
                           "/missing/a.txt" env_create_refused sample_world))).
    right. intros e H. vm_compute in H.
    repeat (destruct H as [H | H]; [discriminate H |]). exact H.
Defined.

(** ** Download *)

(** C2: the only file [Download] ever syncs is the local file it
    created at [localPath], and the only copy it makes is from the remote
    file it opened at [remotePath] into that local file.  Its trace holds a
    sync of the local file exactly when it holds a copy that ended without
    error, and then the sync comes right after the copy and its answer is
    what [Download] returns.  When the copy ends with an error, [Download]
    returns that very error, its trace holds no sync whatever [Sync] would
    have answered, and no handle is left open. *)
Theorem Download_sync_iff_copy_ok c rp lp env w :
  (forall f e,
      In (EvSync f e) (events (Download c rp lp env w)) ->
      In (EvOsCreate lp (Ok f)) (events (Download c rp lp env w))) /\
  (forall dst src n err,
      In (EvCopy dst src n err) (events (Download c rp lp env w)) ->
      In (EvOsCreate lp (Ok dst)) (events (Download c rp lp env w)) /\
      exists ftp, In (EvSftpOpen ftp rp (Ok src)) (events (Download c rp lp env w))) /\
  ((exists f e,
       In (EvOsCreate lp (Ok f)) (events (Download c rp lp env w)) /\
       In (EvSync f e) (events (Download c rp lp env w))) <->
   (exists dst src n, In (EvCopy dst src n None) (events (Download c rp lp env w)))) /\
  (forall dst src n,
      In (EvCopy dst src n None) (events (Download c rp lp env w)) ->
      outcome (Download c rp lp env w) = Ret (sync_err env) /\
      exists pre post,
        events (Download c rp lp env w)
        = (pre ++ EvCopy dst src n None :: EvSync dst (sync_err env) :: post)%list) /\
  (forall dst src n e,
      In (EvCopy dst src n (Some e)) (events (Download c rp lp env w)) ->
      outcome (Download c rp lp env w) = Ret (Some e) /\
      (forall f e', ~ In (EvSync f e') (events (Download c rp lp env w))) /\
      open (world (Download c rp lp env w)) = open w).
Proof.
  pose proof (Download_cases c rp lp env w) as E. cbv zeta in E. rewrite E. clear E.
  destruct (os_create_err env lp) as [e0 |];
    [| destruct (new_sftp_err env) as [e0 |];
       [| destruct (sftp_open_err env rp) as [e0 |];
          [| destruct (remote_fs w !! rp) as [b |];
             [destruct (copy_fault env) as [[k e0] |] |]]]].
  1-3, 6:
    (split; [intros f e H; in_trace H |];
     split; [intros dst src n err H; in_trace H |];
     split; [split; [intros (f & e & _ & H) | intros (dst & src & n & H)];
             in_trace H |];
     split; [intros dst src n H; in_trace H |];
     intros dst src n e H; in_trace H).
  - (* the copy fails *)
    split; [intros f e H; in_trace H |].
    split; [intros dst src n err H; in_trace H;
            injection H as <- <- _ _; simpl; eauto 10 |].
    split; [split; [intros (f & e & _ & H) | intros (dst & src & n & H)];
            in_trace H |].
    split; [intros dst src n H; in_trace H |].
    intros dst src n e H. in_trace H. injection H as _ _ _ <-.
    split; [reflexivity |]. split; [| reflexivity].
    intros f e' H'. in_trace H'.
  - (* the copy goes through *)
    split; [intros f e H; in_trace H; injection H as <- _; simpl; auto |].
    split; [intros dst src n err H; in_trace H;
            injection H as <- <- _ _; simpl; eauto 10 |].
    split; [split; [intros _; eexists _, _, _; simpl; eauto 10
                   | intros _; eexists _, _; simpl;
                     split; [left; reflexivity | eauto 10]] |].
    split; [| intros dst src n e H; in_trace H].
    intros dst src n H. in_trace H. injection H as <- <- <-.
    split; [reflexivity |]. eexists [_; _; _], _. reflexivity.
Qed.

(** A copy that breaks after two of six bytes, and one that goes through:
    the handle synced is the one of the local file. *)
Lemma Download_sync_iff_copy_ok_witness :
  (In (EvCopy 0 2 2 (Some (ErrOther "sftp: connection lost")))
      (events (Download sample_client "/remote/a.txt" "/tmp/b.txt"
                 env_copy_breaks sample_world_remote)) /\
   outcome (Download sample_client "/remote/a.txt" "/tmp/b.txt"
              env_copy_breaks sample_world_remote)
     = Ret (Some (ErrOther "sftp: connection lost")) /\
   forall f e', ~ In (EvSync f e')
                     (events (Download sample_client "/remote/a.txt" "/tmp/b.txt"
                                env_copy_breaks sample_world_remote))) /\
  (In (EvSync 0 None)
      (events (Download sample_client "/remote/a.txt" "/tmp/b.txt"
                 env_ok sample_world_remote)) /\
   In (EvOsCreate "/tmp/b.txt" (Ok 0))
      (events (Download sample_client "/remote/a.txt" "/tmp/b.txt"
                 env_ok sample_world_remote))).
Proof.
  assert (Hin : In (EvCopy 0 2 2 (Some (ErrOther "sftp: connection lost")))
                   (events (Download sample_client "/remote/a.txt" "/tmp/b.txt"
                              env_copy_breaks sample_world_remote)))
    by (vm_compute; auto 10).
  assert (Hsy : In (EvSync 0 None)
                   (events (Download sample_client "/remote/a.txt" "/tmp/b.txt"
                              env_ok sample_world_remote)))
    by (vm_compute; auto 10).
  split.
  - destruct (proj2 (proj2 (proj2 (proj2
               (Download_sync_iff_copy_ok sample_client "/remote/a.txt" "/tmp/b.txt"
                  env_copy_breaks sample_world_remote)))) _ _ _ _ Hin)
      as (Hout & Hsync & _).
    split; [exact Hin |]. split; [exact Hout | exact Hsync].
  - split; [exact Hsy |].
    exact (proj1 (Download_sync_iff_copy_ok sample_client "/remote/a.txt" "/tmp/b.txt"
                    env_ok sample_world_remote) _ _ Hsy).
Defined.

(** C10: whenever [Download] attempts to open the remote file, the first
    thing it did was create (or truncate) the local file with success.
    When that open fails, [Download] returns the error of the open and
    leaves the local file at [localPath] present and empty, everything
    else on the local disk as it was.  With the local create and the sftp
    client succeeding, a remote path that does not exist or cannot be
    read makes the open fail. *)
Theorem Download_creates_local_first c rp lp env w :
  (forall ftp res,
      In (EvSftpOpen ftp rp res) (events (Download c rp lp env w)) ->
      exists local evs,
        events (Download c rp lp env w) = EvOsCreate lp (Ok local) :: evs /\
        In (EvSftpOpen ftp rp res) evs) /\
  (forall ftp e,
      In (EvSftpOpen ftp rp (Err e)) (events (Download c rp lp env w)) ->
      outcome (Download c rp lp env w) = Ret (Some e) /\
      local_fs (world (Download c rp lp env w)) = <[lp := []]> (local_fs w)) /\
  (os_create_err env lp = None ->
   new_sftp_err env = None ->
   remote_fs w !! rp = None \/ sftp_open_err env rp <> None ->
   exists ftp e,
     In (EvSftpOpen ftp rp (Err e)) (events (Download c rp lp env w))).
Proof.
  pose proof (Download_cases c rp lp env w) as E. cbv zeta in E. rewrite E. clear E.
  split; [| split].
  - intros ftp res H.
    destruct (os_create_err env lp); [in_trace H |].
    destruct (new_sftp_err env); [in_trace H |].
    destruct (sftp_open_err env rp);
      [eexists _, _; split; [reflexivity | in_trace H; rewrite <- H; simpl; auto] |].
    destruct (remote_fs w !! rp);
      [| eexists _, _; split; [reflexivity | in_trace H; rewrite <- H; simpl; auto]].
    destruct (copy_fault env) as [[k e] |];
      eexists _, _; (split; [reflexivity | in_trace H; rewrite <- H; simpl; auto]).
  - intros ftp e H.
    destruct (os_create_err env lp); [in_trace H |].
    destruct (new_sftp_err env); [in_trace H |].
    destruct (sftp_open_err env rp);
      [in_trace H; injection H as <- <-; split; reflexivity |].
    destruct (remote_fs w !! rp);
      [| in_trace H; injection H as <- <-; split; reflexivity].
    destruct (copy_fault env) as [[k e'] |]; in_trace H.
  - intros -> -> Hbad.
    destruct (sftp_open_err env rp) as [e |]; [eexists _, _; simpl; eauto |].
    destruct Hbad as [-> | Hbad]; [eexists _, _; simpl; eauto | contradiction].
Qed.

(** Downloading a remote file that does not exist over an existing local
    file: the error is the remote one, the local file is emptied. *)
Lemma Download_creates_local_first_witness :
  In (EvSftpOpen 1 "/remote/none" (Err (ErrNotExist "/remote/none")))
     (events (Download sample_client "/remote/none" "/tmp/a.txt" env_ok sample_world)) /\
  outcome (Download sample_client "/remote/none" "/tmp/a.txt" env_ok sample_world)
    = Ret (Some (ErrNotExist "/remote/none")) /\
  local_fs sample_world !! "/tmp/a.txt" = Some [x64; x61; x74; x61] /\
  local_fs (world (Download sample_client "/remote/none" "/tmp/a.txt" env_ok sample_world))
    !! "/tmp/a.txt" = Some [].
Proof.
  assert (Hin : In (EvSftpOpen 1 "/remote/none" (Err (ErrNotExist "/remote/none")))
                   (events (Download sample_client "/remote/none" "/tmp/a.txt"
                              env_ok sample_world)))
    by (vm_compute; auto).
  destruct (proj1 (proj2 (Download_creates_local_first sample_client "/remote/none"
                            "/tmp/a.txt" env_ok sample_world)) _ _ Hin)
    as [Hout Hfs].
  split; [exact Hin |]. split; [exact Hout |]. split; [reflexivity |].
  rewrite Hfs. apply lookup_insert_eq.
Defined.

(** ** Upload, then Download *)

(** C6: if a local file holds [b], its upload to [remotePath] returns no
    error, and the download of [remotePath] that follows returns no error,
    then the downloaded file holds exactly [b]. *)
Theorem Upload_Download_roundtrip c c' src remotePath dst env env' w b :
  local_fs w !! src = Some b ->
  outcome (Upload c src remotePath env w) = Ret None ->
  outcome (Download c' remotePath dst env'
             (world (Upload c src remotePath env w))) = Ret None ->
  local_fs (world (Download c' remotePath dst env'
                     (world (Upload c src remotePath env w)))) !! dst = Some b.
Proof.
  intros Hb.
  pose proof (Upload_cases c src remotePath env w) as E. cbv zeta in E.
  rewrite E. clear E. rewrite Hb.
  destruct (os_open_err env src); [discriminate |].
  destruct (new_sftp_err env); [discriminate |].
  destruct (sftp_create_err env remotePath); [discriminate |].
  destruct (copy_fault env) as [[k e] |]; [discriminate |].
  intros _. simpl world.
  set (w' := with_remote_fs (<[remotePath:=b]> (remote_fs w)) w).
  pose proof (Download_cases c' remotePath dst env' w') as E. cbv zeta in E.
  rewrite E. clear E.
  assert (Hr : remote_fs w' !! remotePath = Some b) by apply lookup_insert_eq.
  rewrite Hr.
  destruct (os_create_err env' dst); [discriminate |].
  destruct (new_sftp_err env'); [discriminate |].
  destruct (sftp_open_err env' remotePath); [discriminate |].
  destruct (copy_fault env') as [[k e] |]; [discriminate |].
  intros _. apply lookup_insert_eq.
Qed.

(** The scenario of the specification: [/tmp/a.txt] holds [data]; after
    upload to [/remote/a.txt] and download to [/tmp/b.txt], the latter
    holds [data]. *)
Lemma Upload_Download_roundtrip_witness :
  local_fs (world (Download sample_client "/remote/a.txt" "/tmp/b.txt" env_ok
                     (world (Upload sample_client "/tmp/a.txt" "/remote/a.txt"
                               env_ok sample_world))))
    !! "/tmp/b.txt" = Some [x64; x61; x74; x61].
Proof.
  apply (Upload_Download_roundtrip sample_client sample_client
           "/tmp/a.txt" "/remote/a.txt" "/tmp/b.txt" env_ok env_ok sample_world);
    reflexivity.
Defined.

(** The round trip of a zero-length file. *)
Example Upload_Download_empty_file :
  let w := init_world (<["/tmp/empty" := []]> ∅) ∅ in
  let w' := world (Upload sample_client "/tmp/empty" "/remote/empty" env_ok w) in
  outcome (Upload sample_client "/tmp/empty" "/remote/empty" env_ok w) = Ret None /\
  outcome (Download sample_client "/remote/empty" "/tmp/copy" env_ok w') = Ret None /\
  local_fs (world (Download sample_client "/remote/empty" "/tmp/copy" env_ok w'))
    !! "/tmp/copy" = Some [].
Proof. vm_compute. auto. Qed.

(** ** Further properties of Run *)

(** X1: when the session opens and the remote process exits with status 0
    after writing [out], [Run] returns a nil error and a slice holding
    exactly [out]. *)
Theorem Run_zero_exit c cmd env w out :
  new_session_err env = None ->
  exec env cmd = Exited out 0 ->
  exists o,
    outcome (Run c cmd env w) = Ret (o, None) /\
    slice_bytes o = out.
Proof.
  intros Hs Hx. exists (Buffer_Bytes out).
  unfold Run, bind, defer, Close, NewSession, Session_CombinedOutput, ret.
  rewrite Hs; simpl. rewrite Hx; simpl.
  split; [reflexivity |]. destruct out; reflexivity.
Qed.

Lemma Run_zero_exit_witness :
  exists o,
    outcome (Run sample_client "echo hi" env_ok sample_world) = Ret (o, None) /\
    slice_bytes o = [x68; x69; x0a].
Proof.
  apply (Run_zero_exit sample_client "echo hi" env_ok sample_world [x68; x69; x0a]);
    reflexivity.
Defined.

(** X2: on every exit path [Run] leaves the set of open handles, the
    local files and the package variable as it found them.  When the
    session does not open, nothing at all has changed; when it opens, the
    remote files are what the command made of them. *)
Theorem Run_touches_nothing_local c cmd env w :
  open (world (Run c cmd env w)) = open w /\
  local_fs (world (Run c cmd env w)) = local_fs w /\
  DefaultTimeout (world (Run c cmd env w)) = DefaultTimeout w /\
  (forall e, new_session_err env = Some e -> world (Run c cmd env w) = w) /\
  (new_session_err env = None ->
   remote_fs (world (Run c cmd env w)) = exec_effect env cmd (remote_fs w)).
Proof.
  split; [apply keeps_open_Run |].
  unfold Run, bind, defer, Close, NewSession, Session_CombinedOutput, ret.
  destruct (new_session_err env); simpl.
  - repeat split. discriminate.
  - destruct (exec env cmd); simpl; repeat split; discriminate.
Qed.

Lemma Run_touches_nothing_local_witness :
  world (Run sample_client "echo hi"
           (with_new_session_err (Some (ErrOther "ssh: rejected")) env_ok) sample_world)
  = sample_world /\
  remote_fs (world (Run sample_client "boom" env_ok sample_world_remote))
  = exec_effect env_ok "boom" (remote_fs sample_world_remote).
Proof.
  split.
  - apply (proj1 (proj2 (proj2 (proj2
             (Run_touches_nothing_local sample_client "echo hi"
                (with_new_session_err (Some (ErrOther "ssh: rejected")) env_ok)
                sample_world)))) (ErrOther "ssh: rejected")).
    reflexivity.
  - apply (proj2 (proj2 (proj2 (proj2
             (Run_touches_nothing_local sample_client "boom" env_ok
                sample_world_remote))))).
    reflexivity.
Defined.

(** X3: what closing the session returns never reaches the caller of
    [Run]: with any other answers of [Close], [Run] leaves the same way and
    leaves the same world. *)
Theorem Run_ignores_close_error c cmd env w f :
  outcome (Run c cmd (with_close_err f env) w) = outcome (Run c cmd env w) /\
  world (Run c cmd (with_close_err f env) w) = world (Run c cmd env w).
Proof.
  unfold Run, bind, defer, Close, NewSession, Session_CombinedOutput, ret. simpl.
  destruct (new_session_err env); simpl; [split; reflexivity |].
  destruct (exec env cmd); split; reflexivity.
Qed.

(** ** NewClient and Close *)

(** X4: [NewClient] on a configuration with a client configuration dials
    exactly once, over the configured protocol, to the joined address and
    port, with that client configuration.  When the dial fails it returns
    nil and the error and leaves the world as it was; when it succeeds the
    returned client keeps the configuration it was given and its
    connection is open. *)
Theorem NewClient_dials_once cfg cc env w :
  Config.ClientConfig cfg = Some cc ->
  let addr := net_JoinHostPort (Config.Addr cfg) (fmt_Sprint (Config.Port cfg)) in
  (forall e,
      dial_err env = Some e ->
      NewClient (Some cfg) env w
      = mkRes w [EvDial (Config.Protocol cfg) addr (Some cc) (Err e)]
              (Ret (None, Some e))) /\
  (dial_err env = None ->
   exists conn,
     outcome (NewClient (Some cfg) env w)
     = Ret (Some {| Client.Client := conn; Client.Config := Some cfg |}, None) /\
     events (NewClient (Some cfg) env w)
     = [EvDial (Config.Protocol cfg) addr (Some cc) (Ok conn)] /\
     open w !! conn = None /\
     open (world (NewClient (Some cfg) env w)) = <[conn := ResConn addr]> (open w)).
Proof.
  intros Hcc addr. unfold NewClient, bind, ssh_Dial, ret. rewrite Hcc. split.
  - intros e ->. reflexivity.
  - intros ->. exists (new_handle w). simpl.
    repeat split. apply new_handle_fresh.
Qed.

Lemma NewClient_dials_once_witness :
  NewClient (Some sample_config)
            (with_dial_err (Some (ErrOther "dial tcp: connection refused")) env_ok)
            sample_world
  = mkRes sample_world
          [EvDial "tcp" "example.com:2222" (Config.ClientConfig sample_config)
                  (Err (ErrOther "dial tcp: connection refused"))]
          (Ret (None, Some (ErrOther "dial tcp: connection refused"))) /\
  exists conn,
    outcome (NewClient (Some sample_config) env_ok sample_world)
    = Ret (Some {| Client.Client := conn; Client.Config := Some sample_config |}, None) /\
    events (NewClient (Some sample_config) env_ok sample_world)
    = [EvDial "tcp" "example.com:2222" (Config.ClientConfig sample_config) (Ok conn)].
Proof.
  split.
  - apply (proj1 (NewClient_dials_once sample_config _
                    (with_dial_err (Some (ErrOther "dial tcp: connection refused")) env_ok)
                    sample_world eq_refl)).
    reflexivity.
  - destruct (proj2 (NewClient_dials_once sample_config _ env_ok sample_world eq_refl)
                    eq_refl) as (conn & H1 & H2 & _).
    exists conn. split; [exact H1 | exact H2].
Defined.

(** X5: closing a client that [NewClient] returned leaves no handle open
    that was not open before the dial, and the answer of the transport's
    close is passed on to the caller. *)
Theorem NewClient_then_Close cfg env env' w client :
  outcome (NewClient (Some cfg) env w) = Ret (Some client, None) ->
  open (world (Client_Close client env' (world (NewClient (Some cfg) env w)))) = open w /\
  outcome (Client_Close client env' (world (NewClient (Some cfg) env w)))
  = Ret (close_err env' (Client.Client client)).
Proof.
  unfold NewClient, bind, ssh_Dial, ret, Client_Close, Close.
  destruct (Config.ClientConfig cfg); simpl; [| discriminate].
  destruct (dial_err env); simpl; [discriminate |].
  intros H. injection H as <-. simpl. split; [| reflexivity].
  apply delete_insert_id, new_handle_fresh.
Qed.

Lemma NewClient_then_Close_witness :
  open (world (Client_Close {| Client.Client := 0; Client.Config := Some sample_config |}
                 env_ok (world (NewClient (Some sample_config) env_ok sample_world))))
  = open sample_world.
Proof.
  apply (NewClient_then_Close sample_config env_ok env_ok sample_world
           {| Client.Client := 0; Client.Config := Some sample_config |}).
  reflexivity.
Defined.

(** ** Command, CommandContext, RunContext *)

(** X6: when the session opens, [Command] returns a command with the given
    name and arguments, the background context and a session that was not
    open before; that session is open when [Command] returns and nothing
    was closed.  When the session does not open, [Command] returns nil and
    the error and leaves the world as it was. *)
Theorem Command_hands_over_session c name args env w :
  (new_session_err env = None ->
   exists sess,
     outcome (Command c name args env w)
     = Ret (Some {| Cmd.Path := name;
                    Cmd.Args := args;
                    Cmd.Session := sess;
                    Cmd.Context := context.Background |}, None) /\
     open w !! sess = None /\
     open (world (Command c name args env w))
     = <[sess := ResSession (Client.Client c)]> (open w) /\
     closed_handles (events (Command c name args env w)) = []) /\
  (forall e,
      new_session_err env = Some e ->
      Command c name args env w
      = mkRes w [EvNewSession (Client.Client c) (Err e)] (Ret (None, Some e))).
Proof.
  unfold Command, bind, NewSession, ret. split.
  - intros ->. exists (new_handle w). simpl. repeat split. apply new_handle_fresh.
  - intros e ->. reflexivity.
Qed.

Lemma Command_hands_over_session_witness :
  (exists sess,
      outcome (Command sample_client "ls" ["-l"; "/tmp"] env_ok sample_world)
      = Ret (Some {| Cmd.Path := "ls";
                     Cmd.Args := ["-l"; "/tmp"];
                     Cmd.Session := sess;
                     Cmd.Context := context.Background |}, None) /\
      open (world (Command sample_client "ls" ["-l"; "/tmp"] env_ok sample_world))
      = <[sess := ResSession 0]> (open sample_world)) /\
  Command sample_client "ls" []
          (with_new_session_err (Some (ErrOther "ssh: rejected")) env_ok) sample_world
  = mkRes sample_world [EvNewSession 0 (Err (ErrOther "ssh: rejected"))]
          (Ret (None, Some (ErrOther "ssh: rejected"))).
Proof.
  split.
  - destruct (proj1 (Command_hands_over_session sample_client "ls" ["-l"; "/tmp"]
                       env_ok sample_world) eq_refl) as (sess & H1 & _ & H2 & _).
    exists sess. split; [exact H1 | exact H2].
  - apply (proj2 (Command_hands_over_session sample_client "ls" []
                    (with_new_session_err (Some (ErrOther "ssh: rejected")) env_ok)
                    sample_world)).
    reflexivity.
Defined.

(** X7: [CommandContext] with the background context is [Command]. *)
Theorem CommandContext_Background c name args env w :
  CommandContext c context.Background name args env w = Command c name args env w.
Proof.
  unfold CommandContext, Command, bind, NewSession, ret.
  destruct (new_session_err env); reflexivity.
Qed.

(** X8: [CommandContext] does to the world what [Command] does and records
    the same events.  Where [Command] returns a command, [CommandContext]
    returns it with the context replaced by the given one, path, arguments
    and session unchanged; where [Command] returns an error,
    [CommandContext] returns the same nil command and error. *)
Theorem CommandContext_sets_context c ctx name args env w :
  world (CommandContext c ctx name args env w) = world (Command c name args env w) /\
  events (CommandContext c ctx name args env w) = events (Command c name args env w) /\
  (forall cmd,
      outcome (Command c name args env w) = Ret (Some cmd, None) ->
      outcome (CommandContext c ctx name args env w)
      = Ret (Some {| Cmd.Path := Cmd.Path cmd;
                     Cmd.Args := Cmd.Args cmd;
                     Cmd.Session := Cmd.Session cmd;
                     Cmd.Context := ctx |}, None)) /\
  (forall cmd e,
      outcome (Command c name args env w) = Ret (cmd, Some e) ->
      outcome (CommandContext c ctx name args env w) = Ret (None, Some e)).
Proof.
  unfold CommandContext, Command, bind, NewSession, ret.
  destruct (new_session_err env); simpl.
  - repeat split; [discriminate | intros cmd e0 H; injection H as <- <-; reflexivity].
  - repeat split; [intros cmd H; injection H as <-; reflexivity | discriminate].
Qed.

Lemma CommandContext_sets_context_witness :
  outcome (CommandContext sample_client (context.WithCancel 7) "ls" ["-l"]
             env_ok sample_world)
  = Ret (Some {| Cmd.Path := "ls";
                 Cmd.Args := ["-l"];
                 Cmd.Session := 0;
                 Cmd.Context := context.WithCancel 7 |}, None) /\
  outcome (CommandContext sample_client (context.WithCancel 7) "ls" ["-l"]
             (with_new_session_err (Some (ErrOther "ssh: rejected")) env_ok)
             sample_world)
  = Ret (None, Some (ErrOther "ssh: rejected")).
Proof.
  split.
  - apply (proj1 (proj2 (proj2 (CommandContext_sets_context sample_client
                                  (context.WithCancel 7) "ls" ["-l"] env_ok sample_world)))
                 {| Cmd.Path := "ls";
                    Cmd.Args := ["-l"];
                    Cmd.Session := 0;
                    Cmd.Context := context.Background |}).
    reflexivity.
  - apply (proj2 (proj2 (proj2 (CommandContext_sets_context sample_client
                                  (context.WithCancel 7) "ls" ["-l"]
                                  (with_new_session_err (Some (ErrOther "ssh: rejected"))
                                                        env_ok)
                                  sample_world)))
                 None (ErrOther "ssh: rejected")).
    reflexivity.
Defined.

(** X9: when the session does not open, [RunContext] returns nil output
    and the error without ever asking the command for its output, and
    leaves the world as it was. *)
Theorem RunContext_session_failure co c ctx name env w e :
  new_session_err env = Some e ->
  RunContext co c ctx name env w
  = mkRes w [EvNewSession (Client.Client c) (Err e)] (Ret (None, Some e)).
Proof.
  intros H. unfold RunContext, CommandContext, Command, bind, NewSession, ret.
  rewrite H. reflexivity.
Qed.

Lemma RunContext_session_failure_witness :
  RunContext sample_Cmd_CombinedOutput sample_client (context.WithCancel 7) "echo hi"
             (with_new_session_err (Some (ErrOther "ssh: rejected")) env_ok) sample_world
  = mkRes sample_world [EvNewSession 0 (Err (ErrOther "ssh: rejected"))]
          (Ret (None, Some (ErrOther "ssh: rejected"))).
Proof.
  apply (RunContext_session_failure sample_Cmd_CombinedOutput sample_client
           (context.WithCancel 7) "echo hi"
           (with_new_session_err (Some (ErrOther "ssh: rejected")) env_ok) sample_world).
  reflexivity.
Defined.

(** X10: when the session opens, [RunContext] asks for the combined output
    of a command with the given name, no arguments, the given context and
    the new session, and leaves the way that call does.  [RunContext]
    itself closes nothing: unless collecting the output changes the set of
    open handles, the session it opened is still open when it returns. *)
Theorem RunContext_leaves_session_open co c ctx name env w :
  (forall cmd, keeps_open (co cmd)) ->
  new_session_err env = None ->
  let cmd := {| Cmd.Path := name;
                Cmd.Args := [];
                Cmd.Session := new_handle w;
                Cmd.Context := ctx |} in
  outcome (RunContext co c ctx name env w)
  = outcome (co cmd env (acquire (ResSession (Client.Client c)) w)) /\
  open w !! new_handle w = None /\
  open (world (RunContext co c ctx name env w)) !! new_handle w
  = Some (ResSession (Client.Client c)).
Proof.
  intros Hco Hs cmd.
  unfold RunContext, CommandContext, Command, bind, NewSession, ret.
  rewrite Hs. simpl. fold cmd.
  split; [| split].
  - destruct (outcome _); reflexivity.
  - apply new_handle_fresh.
  - match goal with
    | |- open (world ?t) !! _ = _ =>
        replace (world t)
          with (world (co cmd env (acquire (ResSession (Client.Client c)) w)))
    end.
    + rewrite Hco. apply lookup_acquire_new.
    + destruct (outcome (co cmd env (acquire (ResSession (Client.Client c)) w)));
        reflexivity.
Qed.

Lemma RunContext_leaves_session_open_witness :
  outcome (RunContext sample_Cmd_CombinedOutput sample_client (context.WithCancel 7)
             "echo hi" env_ok sample_world)
  = Ret (Some [x68; x69; x0a], None) /\
  open sample_world !! 0 = None /\
  open (world (RunContext sample_Cmd_CombinedOutput sample_client (context.WithCancel 7)
                 "echo hi" env_ok sample_world)) !! 0
  = Some (ResSession 0).
Proof.
  apply (RunContext_leaves_session_open sample_Cmd_CombinedOutput sample_client
           (context.WithCancel 7) "echo hi" env_ok sample_world).
  - intros cmd. apply keeps_open_CombinedOutput.
  - reflexivity.
Defined.

(** ** Further properties of Upload *)

Lemma take_length_take {A} (k : nat) (l : list A) :
  take (length (take k l)) l = take k l.
Proof.
  rewrite length_take. destruct (Nat.le_ge_cases k (length l)) as [H | H].
  - now rewrite Nat.min_l.
  - rewrite Nat.min_r by exact H. now rewrite !take_ge.
Qed.

(** X11: an [Upload] that returns no error leaves a world that differs
    from the one it started in by one thing only: the remote file at
    [remotePath] holds exactly the bytes of the local file, whatever it
    held before. *)
Theorem Upload_success_remote_contents c lp rp env w b :
  local_fs w !! lp = Some b ->
  outcome (Upload c lp rp env w) = Ret None ->
  world (Upload c lp rp env w) = with_remote_fs (<[rp := b]> (remote_fs w)) w.
Proof.
  intros Hb.
  pose proof (Upload_cases c lp rp env w) as E. cbv zeta in E. rewrite E. clear E.
  rewrite Hb.
  destruct (os_open_err env lp); [discriminate |].
  destruct (new_sftp_err env); [discriminate |].
  destruct (sftp_create_err env rp); [discriminate |].
  destruct (copy_fault env) as [[k e] |]; [discriminate |].
  reflexivity.
Qed.

Lemma Upload_success_remote_contents_witness :
  world (Upload sample_client "/tmp/a.txt" "/remote/a.txt" env_ok sample_world_remote)
  = with_remote_fs (<["/remote/a.txt" := [x64; x61; x74; x61]]>
                      (remote_fs sample_world_remote)) sample_world_remote.
Proof.
  apply (Upload_success_remote_contents sample_client "/tmp/a.txt" "/remote/a.txt"
           env_ok sample_world_remote); reflexivity.
Defined.

(** X12: when the copy of an [Upload] ends with an error after [n] bytes,
    [Upload] returns that error and the remote file is left holding
    exactly the first [n] bytes of the local file; nothing else in the
    world has changed. *)
Theorem Upload_copy_failure_leaves_prefix c lp rp env w dst src n e :
  In (EvCopy dst src n (Some e)) (events (Upload c lp rp env w)) ->
  outcome (Upload c lp rp env w) = Ret (Some e) /\
  exists b,
    local_fs w !! lp = Some b /\
    n <= length b /\
    world (Upload c lp rp env w)
    = with_remote_fs (<[rp := take n b]> (remote_fs w)) w.
Proof.
  pose proof (Upload_cases c lp rp env w) as E. cbv zeta in E. rewrite E. clear E.
  intros H.
  destruct (os_open_err env lp); [in_trace H |].
  destruct (local_fs w !! lp) as [b |]; [| in_trace H].
  destruct (new_sftp_err env); [in_trace H |].
  destruct (sftp_create_err env rp); [in_trace H |].
  destruct (copy_fault env) as [[k e'] |]; in_trace H.
  injection H as _ _ <- <-. split; [reflexivity |].
  exists b. split; [reflexivity |]. split.
  - rewrite length_take. apply Nat.le_min_r.
  - simpl. now rewrite take_length_take.
Qed.

Lemma Upload_copy_failure_leaves_prefix_witness :
  outcome (Upload sample_client "/tmp/a.txt" "/remote/a.txt"
             env_copy_breaks sample_world)
  = Ret (Some (ErrOther "sftp: connection lost")) /\
  exists b,
    local_fs sample_world !! "/tmp/a.txt" = Some b /\
    2 <= length b /\
    world (Upload sample_client "/tmp/a.txt" "/remote/a.txt"
             env_copy_breaks sample_world)
    = with_remote_fs (<["/remote/a.txt" := take 2 b]> (remote_fs sample_world))
                     sample_world.
Proof.
  apply (Upload_copy_failure_leaves_prefix sample_client "/tmp/a.txt" "/remote/a.txt"
           env_copy_breaks sample_world 2 0 2 (ErrOther "sftp: connection lost")).
  vm_compute. auto 10.
Defined.

(** X13: when the local file does not exist, [Upload] returns the error of
    the failed open after that single step; no sftp client is requested and
    the world is as it was. *)
Theorem Upload_missing_local_file c lp rp env w :
  local_fs w !! lp = None ->
  exists e,
    Upload c lp rp env w = mkRes w [EvOsOpen lp (Err e)] (Ret (Some e)).
Proof.
  intros Hb.
  pose proof (Upload_cases c lp rp env w) as E. cbv zeta in E. rewrite E. clear E.
  rewrite Hb. destruct (os_open_err env lp); eauto.
Qed.

Lemma Upload_missing_local_file_witness :
  exists e,
    Upload sample_client "/tmp/none" "/remote/a.txt" env_ok sample_world
    = mkRes sample_world [EvOsOpen "/tmp/none" (Err e)] (Ret (Some e)).
Proof.
  apply (Upload_missing_local_file sample_client "/tmp/none" "/remote/a.txt"
           env_ok sample_world).
  reflexivity.
Defined.

(** X14: as long as the remote file has not been created, [Upload] has
    changed no file: a trace without a successful remote create comes with
    the local and the remote files as they were.  The whole world is the
    one [Upload] started in, unless the sftp client could not be set up and
    left its own session behind. *)
Theorem Upload_changes_nothing_before_create c lp rp env w :
  (forall ftp h, ~ In (EvSftpCreate ftp rp (Ok h)) (events (Upload c lp rp env w))) ->
  local_fs (world (Upload c lp rp env w)) = local_fs w /\
  remote_fs (world (Upload c lp rp env w)) = remote_fs w /\
  (sftp_leaks_session env = false \/
   (forall e, ~ In (EvNewSftp (Client.Client c) (Err e)) (events (Upload c lp rp env w))) ->
   world (Upload c lp rp env w) = w).
Proof.
  pose proof (Upload_cases c lp rp env w) as E. cbv zeta in E. rewrite E. clear E.
  intros H.
  destruct (os_open_err env lp); [repeat split |].
  destruct (local_fs w !! lp) as [b |]; [| repeat split].
  destruct (new_sftp_err env).
  { destruct (sftp_leaks_session env); simpl; repeat split.
    intros [Hl | Hno]; [discriminate |].
    exfalso. eapply Hno. simpl. eauto. }
  destruct (sftp_create_err env rp); [repeat split |].
  destruct (copy_fault env) as [[k e] |];
    exfalso; eapply H; simpl; eauto.
Qed.

Lemma Upload_changes_nothing_before_create_witness :
  local_fs (world (Upload sample_client "/tmp/a.txt" "/missing/a.txt"
                     env_create_refused sample_world_remote))
  = local_fs sample_world_remote /\
  remote_fs (world (Upload sample_client "/tmp/a.txt" "/missing/a.txt"
                      env_create_refused sample_world_remote))
  = remote_fs sample_world_remote /\
  world (Upload sample_client "/tmp/a.txt" "/missing/a.txt"
           env_create_refused sample_world_remote)
  = sample_world_remote.
Proof.
  destruct (Upload_changes_nothing_before_create sample_client "/tmp/a.txt"
              "/missing/a.txt" env_create_refused sample_world_remote)
    as (Hl & Hr & Hw).
  - intros ftp h H. vm_compute in H.
    repeat (destruct H as [H | H]; [discriminate H |]). exact H.
  - split; [exact Hl |]. split; [exact Hr |].
    apply Hw. right. intros e H. vm_compute in H.
    repeat (destruct H as [H | H]; [discriminate H |]). exact H.
Defined.

(** X15: on every exit path [Upload] closes the handles it was handed in
    the reverse of the order in which it got them. *)
Theorem Upload_closes_in_reverse_order c lp rp env w :
  closed_handles (events (Upload c lp rp env w))
  = rev (acquired_handles (events (Upload c lp rp env w))).
Proof.
  pose proof (Upload_cases c lp rp env w) as E. cbv zeta in E. rewrite E. clear E.
  destruct (os_open_err env lp); [reflexivity |].
  destruct (local_fs w !! lp) as [b |]; [| reflexivity].
  destruct (new_sftp_err env); [reflexivity |].
  destruct (sftp_create_err env rp); [reflexivity |].
  destruct (copy_fault env) as [[k e] |]; reflexivity.
Qed.

(** X16: what the deferred closes of [Upload] return never reaches the
    caller: with any other answers of [Close], [Upload] returns the same
    and leaves the same world. *)
Theorem Upload_ignores_close_errors c lp rp env w f :
  outcome (Upload c lp rp (with_close_err f env) w) = outcome (Upload c lp rp env w) /\
  world (Upload c lp rp (with_close_err f env) w) = world (Upload c lp rp env w).
Proof.
  pose proof (Upload_cases c lp rp env w) as E. cbv zeta in E. rewrite E. clear E.
  pose proof (Upload_cases c lp rp (with_close_err f env) w) as E.
  cbv zeta in E. rewrite E. clear E. simpl.
  destruct (os_open_err env lp); [split; reflexivity |].
  destruct (local_fs w !! lp) as [b |]; [| split; reflexivity].
  destruct (new_sftp_err env); [split; reflexivity |].
  destruct (sftp_create_err env rp); [split; reflexivity |].
  destruct (copy_fault env) as [[k e] |]; split; reflexivity.
Qed.

(** X17: uploading the same file to the same remote path a second time
    changes nothing: if both uploads return no error, the world after the
    second is the world after the first. *)
Theorem Upload_twice c c' lp rp env env' w :
  outcome (Upload c lp rp env w) = Ret None ->
  outcome (Upload c' lp rp env' (world (Upload c lp rp env w))) = Ret None ->
  world (Upload c' lp rp env' (world (Upload c lp rp env w)))
  = world (Upload c lp rp env w).
Proof.
  pose proof (Upload_cases c lp rp env w) as E. cbv zeta in E. rewrite E. clear E.
  destruct (os_open_err env lp); [discriminate |].
  destruct (local_fs w !! lp) as [b |] eqn:Hb; [| discriminate].
  destruct (new_sftp_err env); [discriminate |].
  destruct (sftp_create_err env rp); [discriminate |].
  destruct (copy_fault env) as [[k e] |]; [discriminate |].
  intros _. simpl world.
  set (w' := with_remote_fs (<[rp:=b]> (remote_fs w)) w).
  pose proof (Upload_cases c' lp rp env' w') as E. cbv zeta in E. rewrite E. clear E.
  change (local_fs w') with (local_fs w). rewrite Hb.
  destruct (os_open_err env' lp); [discriminate |].
  destruct (new_sftp_err env'); [discriminate |].
  destruct (sftp_create_err env' rp); [discriminate |].
  destruct (copy_fault env') as [[k e] |]; [discriminate |].
  intros _. unfold w', with_remote_fs; simpl. now rewrite insert_insert_eq.
Qed.

Lemma Upload_twice_witness :
  world (Upload sample_client "/tmp/a.txt" "/remote/a.txt" env_ok
           (world (Upload sample_client "/tmp/a.txt" "/remote/a.txt" env_ok sample_world)))
  = world (Upload sample_client "/tmp/a.txt" "/remote/a.txt" env_ok sample_world).
Proof.
  apply (Upload_twice sample_client sample_client "/tmp/a.txt" "/remote/a.txt"
           env_ok env_ok sample_world); reflexivity.
Defined.

(** ** Further properties of Download *)

(** X18: a [Download] that returns no error leaves a world that differs
    from the one it started in by one thing only: the local file at
    [localPath] holds exactly the bytes of the remote file. *)
Theorem Download_success_local_contents c rp lp env w :
  outcome (Download c rp lp env w) = Ret None ->
  exists b,
    remote_fs w !! rp = Some b /\
    world (Download c rp lp env w) = with_local_fs (<[lp := b]> (local_fs w)) w.
Proof.
  pose proof (Download_cases c rp lp env w) as E. cbv zeta in E. rewrite E. clear E.
  destruct (os_create_err env lp); [discriminate |].
  destruct (new_sftp_err env); [discriminate |].
  destruct (sftp_open_err env rp); [discriminate |].
  destruct (remote_fs w !! rp) as [b |]; [| discriminate].
  destruct (copy_fault env) as [[k e] |]; [discriminate |].
  intros _. exists b. split; reflexivity.
Qed.

Lemma Download_success_local_contents_witness :
  exists b,
    remote_fs sample_world_remote !! "/remote/a.txt" = Some b /\
    world (Download sample_client "/remote/a.txt" "/tmp/a.txt" env_ok sample_world_remote)
    = with_local_fs (<["/tmp/a.txt" := b]> (local_fs sample_world_remote))
                    sample_world_remote.
Proof.
  apply (Download_success_local_contents sample_client "/remote/a.txt" "/tmp/a.txt"
           env_ok sample_world_remote).
  reflexivity.
Defined.

(** X19: when the sync at the end of a [Download] fails, [Download]
    returns the error of the sync, and the local file already holds all
    the bytes of the remote file. *)
Theorem Download_sync_failure_after_full_copy c rp lp env w f e :
  In (EvSync f (Some e)) (events (Download c rp lp env w)) ->
  outcome (Download c rp lp env w) = Ret (Some e) /\
  exists b,
    remote_fs w !! rp = Some b /\
    local_fs (world (Download c rp lp env w)) !! lp = Some b.
Proof.
  pose proof (Download_cases c rp lp env w) as E. cbv zeta in E. rewrite E. clear E.
  intros H.
  destruct (os_create_err env lp); [in_trace H |].
  destruct (new_sftp_err env); [in_trace H |].
  destruct (sftp_open_err env rp); [in_trace H |].
  destruct (remote_fs w !! rp) as [b |]; [| in_trace H].
  destruct (copy_fault env) as [[k e'] |]; in_trace H.
  injection H as _ Hs. simpl. rewrite Hs. split; [reflexivity |].
  exists b. split; [reflexivity | apply lookup_insert_eq].
Qed.

Lemma Download_sync_failure_after_full_copy_witness :
  outcome (Download sample_client "/remote/a.txt" "/tmp/b.txt"
             env_sync_fails sample_world_remote)
  = Ret (Some (ErrOther "sync: input/output error")) /\
  exists b,
    remote_fs sample_world_remote !! "/remote/a.txt" = Some b /\
    local_fs (world (Download sample_client "/remote/a.txt" "/tmp/b.txt"
                       env_sync_fails sample_world_remote)) !! "/tmp/b.txt"
    = Some b.
Proof.
  apply (Download_sync_failure_after_full_copy sample_client "/remote/a.txt" "/tmp/b.txt"
           env_sync_fails sample_world_remote 0 (ErrOther "sync: input/output error")).
  vm_compute. auto 10.
Defined.

(** X20: whatever happens, [Download] changes nothing on the remote side
    and no local file other than the one at [localPath]. *)
Theorem Download_frame c rp lp env w :
  remote_fs (world (Download c rp lp env w)) = remote_fs w /\
  forall p, p <> lp ->
    local_fs (world (Download c rp lp env w)) !! p = local_fs w !! p.
Proof.
  pose proof (Download_cases c rp lp env w) as E. cbv zeta in E. rewrite E. clear E.
  destruct (os_create_err env lp); [split; reflexivity |].
  assert (Hne : forall (p : string) data, p <> lp ->
               <[lp := data]> (local_fs w) !! p = local_fs w !! p)
    by (intros p data Hp; apply lookup_insert_ne; congruence).
  destruct (new_sftp_err env);
    [destruct (sftp_leaks_session env); (split; [reflexivity | simpl; auto]) |].
  destruct (sftp_open_err env rp); [split; [reflexivity | simpl; auto] |].
  destruct (remote_fs w !! rp) as [b |]; [| split; [reflexivity | simpl; auto]].
  destruct (copy_fault env) as [[k e] |]; split; simpl; auto.
Qed.

Lemma Download_frame_witness :
  local_fs (world (Download sample_client "/remote/a.txt" "/tmp/b.txt"
                     env_copy_breaks sample_world_remote)) !! "/tmp/a.txt"
  = local_fs sample_world_remote !! "/tmp/a.txt".
Proof.
  apply (proj2 (Download_frame sample_client "/remote/a.txt" "/tmp/b.txt"
                  env_copy_breaks sample_world_remote) "/tmp/a.txt").
  discriminate.
Defined.

(** X21: once the local create has succeeded, whatever happens afterwards
    the local file at [localPath] exists and holds a prefix of the remote
    file's bytes (nothing at all when the remote file does not exist);
    what the local file held before is gone. *)
Theorem Download_local_holds_prefix c rp lp env w :
  os_create_err env lp = None ->
  exists data,
    local_fs (world (Download c rp lp env w)) !! lp = Some data /\
    data `prefix_of` default [] (remote_fs w !! rp).
Proof.
  intros Hc.
  pose proof (Download_cases c rp lp env w) as E. cbv zeta in E. rewrite E. clear E.
  rewrite Hc.
  destruct (new_sftp_err env);
    [exists []; split;
     [destruct (sftp_leaks_session env); apply lookup_insert_eq | apply prefix_nil] |].
  destruct (sftp_open_err env rp);
    [exists []; split; [apply lookup_insert_eq | apply prefix_nil] |].
  destruct (remote_fs w !! rp) as [b |];
    [| exists []; split; [apply lookup_insert_eq | apply prefix_nil]].
  destruct (copy_fault env) as [[k e] |].
  - exists (take k b). split; [apply lookup_insert_eq | apply prefix_take].
  - exists b. split; [apply lookup_insert_eq | reflexivity].
Qed.

Lemma Download_local_holds_prefix_witness :
  exists data,
    local_fs (world (Download sample_client "/remote/a.txt" "/tmp/a.txt"
                       env_copy_breaks sample_world_remote)) !! "/tmp/a.txt"
    = Some data /\
    data `prefix_of` default [] (remote_fs sample_world_remote !! "/remote/a.txt").
Proof.
  apply (Download_local_holds_prefix sample_client "/remote/a.txt" "/tmp/a.txt"
           env_copy_breaks sample_world_remote).
  reflexivity.
Defined.

(** X22: when the local file cannot be created, [Download] returns that
    error after that single step: no sftp client is requested, the remote
    file is not opened, and the world is as it was. *)
Theorem Download_create_failure c rp lp env w e :
  os_create_err env lp = Some e ->
  Download c rp lp env w = mkRes w [EvOsCreate lp (Err e)] (Ret (Some e)).
Proof.
  intros Hc.
  pose proof (Download_cases c rp lp env w) as E. cbv zeta in E. rewrite E. clear E.
  now rewrite Hc.
Qed.

Lemma Download_create_failure_witness :
  Download sample_client "/remote/a.txt" "/nodir/b.txt"
           (with_os_create_err (fun _ => Some (ErrOther "open: no such directory")) env_ok)
           sample_world_remote
  = mkRes sample_world_remote
          [EvOsCreate "/nodir/b.txt" (Err (ErrOther "open: no such directory"))]
          (Ret (Some (ErrOther "open: no such directory"))).
Proof.
  apply (Download_create_failure sample_client "/remote/a.txt" "/nodir/b.txt"
           (with_os_create_err (fun _ => Some (ErrOther "open: no such directory")) env_ok)
           sample_world_remote).
  reflexivity.
Defined.

(** X23: on every exit path [Download] closes the handles it was handed
    in the reverse of the order in which it got them, and none of them is
    open afterwards.  The set of open handles is the one [Download] started
    with, unless the sftp client could not be set up and left its own
    session behind, to which [Download] holds no handle. *)
Theorem Download_releases_resources c rp lp env w :
  closed_handles (events (Download c rp lp env w))
  = rev (acquired_handles (events (Download c rp lp env w))) /\
  (forall ev h,
      In ev (events (Download c rp lp env w)) ->
      acquired ev = Some h ->
      open (world (Download c rp lp env w)) !! h = None) /\
  (sftp_leaks_session env = false \/
   (forall e, ~ In (EvNewSftp (Client.Client c) (Err e))
                   (events (Download c rp lp env w))) ->
   open (world (Download c rp lp env w)) = open w).
Proof.
  pose proof (Download_cases c rp lp env w) as E. cbv zeta in E. rewrite E. clear E.
  pose proof (new_handle_fresh w) as F1.
  pose proof (new_handle_fresh2 (ResLocalFile lp) w) as F2.
  pose proof (new_handle_fresh3 (ResLocalFile lp) (ResSftp (Client.Client c)) w) as F3.
  pose proof (new_handle_acquire_ne (ResLocalFile lp) w) as Hne.
  split; [| split].
  - destruct (os_create_err env lp); [reflexivity |].
    destruct (new_sftp_err env); [reflexivity |].
    destruct (sftp_open_err env rp); [reflexivity |].
    destruct (remote_fs w !! rp) as [b |]; [| reflexivity].
    destruct (copy_fault env) as [[k e] |]; reflexivity.
  - intros ev h Hin Hacq.
    destruct (os_create_err env lp); [in_trace Hin; subst ev; discriminate |].
    destruct (new_sftp_err env).
    { in_trace Hin; subst ev; try discriminate. injection Hacq as <-.
      destruct (sftp_leaks_session env); simpl; [| exact F1].
      rewrite lookup_insert_ne by congruence. exact F1. }
    destruct (sftp_open_err env rp);
      [in_trace Hin; subst ev; try discriminate; injection Hacq as <-; simpl; auto |].
    destruct (remote_fs w !! rp) as [b |];
      [| in_trace Hin; subst ev; try discriminate; injection Hacq as <-; simpl; auto].
    destruct (copy_fault env) as [[k e] |];
      in_trace Hin; subst ev; try discriminate; injection Hacq as <-; simpl; auto.
  - intros Hleak.
    destruct (os_create_err env lp); [reflexivity |].
    destruct (new_sftp_err env).
    { destruct Hleak as [-> | Hno]; [reflexivity |].
      exfalso. eapply Hno. simpl. eauto. }
    destruct (sftp_open_err env rp); [reflexivity |].
    destruct (remote_fs w !! rp) as [b |]; [| reflexivity].
    destruct (copy_fault env) as [[k e] |]; reflexivity.
Qed.

(** A copy that breaks: the three handles are closed, nothing stays open. *)
Lemma Download_releases_resources_witness :
  open (world (Download sample_client "/remote/a.txt" "/tmp/b.txt"
                 env_copy_breaks sample_world_remote)) !! 2 = None /\
  open (world (Download sample_client "/remote/a.txt" "/tmp/b.txt"
                 env_copy_breaks sample_world_remote))
  = open sample_world_remote.
Proof.
  split.
  - apply (proj1 (proj2 (Download_releases_resources sample_client "/remote/a.txt"
                           "/tmp/b.txt" env_copy_breaks sample_world_remote))
                 (EvSftpOpen 1 "/remote/a.txt" (Ok 2)) 2).
    + vm_compute; auto 10.
    + reflexivity.
  - apply (proj2 (proj2 (Download_releases_resources sample_client "/remote/a.txt"
                           "/tmp/b.txt" env_copy_breaks sample_world_remote))).
    right. intros e H. vm_compute in H.
    repeat (destruct H as [H | H]; [discriminate H |]). exact H.
Defined.

(** X24: what the deferred closes of [Download] return never reaches the
    caller: with any other answers of [Close], [Download] returns the same
    and leaves the same world. *)
Theorem Download_ignores_close_errors c rp lp env w f :
  outcome (Download c rp lp (with_close_err f env) w) = outcome (Download c rp lp env w) /\
  world (Download c rp lp (with_close_err f env) w) = world (Download c rp lp env w).
Proof.
  pose proof (Download_cases c rp lp env w) as E. cbv zeta in E. rewrite E. clear E.
  pose proof (Download_cases c rp lp (with_close_err f env) w) as E.
  cbv zeta in E. rewrite E. clear E. simpl.
  destruct (os_create_err env lp); [split; reflexivity |].
  destruct (new_sftp_err env); [split; reflexivity |].
  destruct (sftp_open_err env rp); [split; reflexivity |].
  destruct (remote_fs w !! rp) as [b |]; [| split; reflexivity].
  destruct (copy_fault env) as [[k e] |]; split; reflexivity.
Qed.

(** ** Download, then Upload; Upload, then Download over the source *)

(** X25: if a remote file holds [b], its download to [localPath] returns
    no error, and the upload of [localPath] to a remote path that follows
    returns no error, then the uploaded remote file holds exactly [b]. *)
Theorem Download_Upload_roundtrip c c' src localPath dst env env' w b :
  remote_fs w !! src = Some b ->
  outcome (Download c src localPath env w) = Ret None ->
  outcome (Upload c' localPath dst env'
             (world (Download c src localPath env w))) = Ret None ->
  remote_fs (world (Upload c' localPath dst env'
                      (world (Download c src localPath env w)))) !! dst = Some b.
Proof.
  intros Hb.
  pose proof (Download_cases c src localPath env w) as E. cbv zeta in E.
  rewrite E. clear E. rewrite Hb.
  destruct (os_create_err env localPath); [discriminate |].
  destruct (new_sftp_err env); [discriminate |].
  destruct (sftp_open_err env src); [discriminate |].
  destruct (copy_fault env) as [[k e] |]; [discriminate |].
  intros _. simpl world.
  set (w' := with_local_fs (<[localPath:=b]> (local_fs w)) w).
  pose proof (Upload_cases c' localPath dst env' w') as E. cbv zeta in E.
  rewrite E. clear E.
  assert (Hl : local_fs w' !! localPath = Some b) by apply lookup_insert_eq.
  rewrite Hl.
  destruct (os_open_err env' localPath); [discriminate |].
  destruct (new_sftp_err env'); [discriminate |].
  destruct (sftp_create_err env' dst); [discriminate |].
  destruct (copy_fault env') as [[k e] |]; [discriminate |].
  intros _. apply lookup_insert_eq.
Qed.

Lemma Download_Upload_roundtrip_witness :
  remote_fs (world (Upload sample_client "/tmp/b.txt" "/remote/copy.txt" env_ok
                      (world (Download sample_client "/remote/a.txt" "/tmp/b.txt"
                                env_ok sample_world_remote))))
    !! "/remote/copy.txt" = Some [x72; x65; x6d; x6f; x74; x65].
Proof.
  apply (Download_Upload_roundtrip sample_client sample_client
           "/remote/a.txt" "/tmp/b.txt" "/remote/copy.txt" env_ok env_ok
           sample_world_remote);
    reflexivity.
Defined.

(** X26: uploading a local file and downloading it back over itself, both
    without error, leaves the whole local file system as it was. *)
Theorem Upload_Download_same_path c c' lp rp env env' w :
  outcome (Upload c lp rp env w) = Ret None ->
  outcome (Download c' rp lp env' (world (Upload c lp rp env w))) = Ret None ->
  local_fs (world (Download c' rp lp env' (world (Upload c lp rp env w))))
  = local_fs w.
Proof.
  pose proof (Upload_cases c lp rp env w) as E. cbv zeta in E. rewrite E. clear E.
  destruct (os_open_err env lp); [discriminate |].
  destruct (local_fs w !! lp) as [b |] eqn:Hb; [| discriminate].
  destruct (new_sftp_err env); [discriminate |].
  destruct (sftp_create_err env rp); [discriminate |].
  destruct (copy_fault env) as [[k e] |]; [discriminate |].
  intros _. simpl world.
  set (w' := with_remote_fs (<[rp:=b]> (remote_fs w)) w).
  pose proof (Download_cases c' rp lp env' w') as E. cbv zeta in E. rewrite E. clear E.
  assert (Hr : remote_fs w' !! rp = Some b) by apply lookup_insert_eq.
  rewrite Hr.
  destruct (os_create_err env' lp); [discriminate |].
  destruct (new_sftp_err env'); [discriminate |].
  destruct (sftp_open_err env' rp); [discriminate |].
  destruct (copy_fault env') as [[k e] |]; [discriminate |].
  intros _. simpl. now apply insert_id.
Qed.

Lemma Upload_Download_same_path_witness :
  local_fs (world (Download sample_client "/remote/a.txt" "/tmp/a.txt" env_ok
                     (world (Upload sample_client "/tmp/a.txt" "/remote/a.txt"
                               env_ok sample_world))))
  = local_fs sample_world.
Proof.
  apply (Upload_Download_same_path sample_client sample_client
           "/tmp/a.txt" "/remote/a.txt" env_ok env_ok sample_world);
    reflexivity.
Defined.
